(** * elysia-schema-gen: class parser and TypeBox schema generator

    A shallow embedding of [src/parser/parser.ts] (the type resolver and the
    class parser) and of the [ElysiaTypeBoxGenerator] class (the TypeBox
    backend), with the properties of the specification stated over it.

    Conventions of the embedding.
    - A JavaScript exception is a value of [Exception]; a function that can
      throw returns a [Result].  [Array.prototype.map] with a throwing
      callback is [mapM]: the callback runs in index order and the first
      exception aborts the whole call.
    - The ts-morph objects ([Type], [Symbol], [Node], [PropertyDeclaration],
      [ClassDeclaration], [SourceFile]) are records of the answers their
      methods give.  The flags of a type handle are independent booleans:
      ts-morph reports overlapping categories (the [Date] interface is an
      object, [boolean] is also a union), which is why the order of the
      tests in [parserPropertyType] matters.
    - The answers of the provider form a finite tree (the acyclicity
      invariant of the data model), so the resolver is a structural
      fixpoint.
    - A JavaScript [number] and its default string conversion are not
      modelled: they are the parameters [Number] and [Number_toString].
    - A string is the sequence of its code units, each held in a character;
      [String.prototype.toLowerCase], a built-in of the engine with the
      case mapping of Unicode, is the parameter [String_toLowerCase].
    - Cyclic types are outside the model: on a self-referential type the
      source recurses without bound, and nothing below speaks about that
      run. *)

From Stdlib Require Import String Ascii List Bool Arith ZArith Lia DecimalString.
Import ListNotations.
Local Open Scope string_scope.
Set Warnings "-register-all".

(** ** Exceptions *)

(** The four [throw new Error(...)] sites of parser.ts. *)
Inductive ParserError : Type :=
| ClassNotFound (className filePath : string)
| MissingDeclaration (propertyName : string)
| CannotGetType (propertyName : string)
| UnsupportedType (typeText : string).

(** The [message] of the [Error] object built at each site. *)
Definition message (e : ParserError) : string :=
  match e with
  | ClassNotFound className filePath =>
      "Class '" ++ className ++ "' not found in file '" ++ filePath ++ "'"
  | MissingDeclaration propertyName =>
      "No declaration found for property " ++ propertyName
  | CannotGetType propertyName =>
      "Cannot get type for property " ++ propertyName
  | UnsupportedType typeText => "Unsupported type: " ++ typeText
  end.

(** What ts-morph itself throws on the paths parser.ts takes:
    [addSourceFileAtPath] on a missing file and
    [getArrayElementTypeOrThrow] on a type with no element type. *)
Inductive ProviderError : Type :=
| FileNotFound (filePath : string)
| NoArrayElementType.

Inductive Exception : Type :=
| Thrown (e : ParserError)
| ProviderThrown (e : ProviderError).

Coercion Thrown : ParserError >-> Exception.

Inductive Result (A : Type) : Type :=
| Ok (a : A)
| Err (e : Exception).

Arguments Ok {A} a.
Arguments Err {A} e.

Definition bind {A B : Type} (r : Result A) (k : A -> Result B) : Result B :=
  match r with
  | Ok a => k a
  | Err e => Err e
  end.

Notation "x <- r ;; k" := (bind r (fun x => k))
  (at level 61, r at next level, right associativity).

(** [xs.map(f)] for a callback that can throw. *)
Definition mapM {A B : Type} (f : A -> Result B) : list A -> Result (list B) :=
  fix go (l : list A) : Result (list B) :=
    match l with
    | [] => Ok []
    | x :: xs => y <- f x ;; ys <- go xs ;; Ok (y :: ys)
    end.

Definition isOk {A : Type} (r : Result A) : bool :=
  match r with
  | Ok _ => true
  | Err _ => false
  end.

(** ** Characters and strings *)

Definition dquote : string := String (ascii_of_nat 34) EmptyString.
Definition newline : string := String (ascii_of_nat 10) EmptyString.

(** [s.charAt(i)]: the one-character string at index [i], empty when out of
    range. *)
Definition charAt (s : string) (i : nat) : string := substring i 1 s.

(** [s.slice(start)]: the suffix of [s] from index [start]. *)
Definition slice (s : string) (start : nat) : string :=
  substring start (String.length s - start) s.

(** [xs.join(sep)]. *)
Definition join (sep : string) (xs : list string) : string :=
  String.concat sep xs.

(** Number of (possibly overlapping) occurrences of [pat] in [s]. *)
Fixpoint occurrences (pat s : string) : nat :=
  match s with
  | EmptyString => 0
  | String _ rest =>
      (if prefix pat s then 1 else 0) + occurrences pat rest
  end.

Section Model.

Context {Number : Type}.
Variable Number_toString : Number -> string.

(** [s.toLowerCase()], the built-in of the engine. *)
Variable String_toLowerCase : string -> string.

(** ** The intermediate representation *)

(** Modelled from the spec: the IR types of [src/types] ([PropertyType],
    [Property], [ParsedClass]), which parser.ts and the generator import but
    which is not among the sources; the shapes follow section 3 of the
    specification and the object literals the two files build and read. *)
Inductive PrimitiveName : Type := Pstring | Pnumber | Pboolean | PDate.

(** The payload of a literal node: [string | number | boolean]. *)
Inductive LiteralValue : Type :=
| LitString (s : string)
| LitNumber (n : Number)
| LitBoolean (b : bool).

Inductive PropertyType : Type :=
| primitive (type : PrimitiveName)
| array (elementType : PropertyType)
| object (properties : list Property)
| union (types : list PropertyType)
| literal (value : LiteralValue)
with Property : Type :=
| MkProperty (name : string) (type : PropertyType)
    (isOptional isReadonly hasDefaultValue : bool).

Definition name (p : Property) : string :=
  match p with MkProperty n _ _ _ _ => n end.
Definition type (p : Property) : PropertyType :=
  match p with MkProperty _ t _ _ _ => t end.
Definition isOptional (p : Property) : bool :=
  match p with MkProperty _ _ o _ _ => o end.
Definition isReadonly (p : Property) : bool :=
  match p with MkProperty _ _ _ r _ => r end.
Definition hasDefaultValue (p : Property) : bool :=
  match p with MkProperty _ _ _ _ d => d end.

Record ParsedClass : Type := MkParsedClass {
  pc_name : string;
  pc_filePath : string;
  pc_isExported : bool;
  pc_properties : list Property
}.

(** ** The type-introspection provider (ts-morph) *)

(** What [type.getLiteralValue()] can return: a string, a number, a
    [PseudoBigInt] object for a bigint literal, or [undefined] (boolean
    literal types carry no value).  [JsBoolean] is kept because the code
    tests for it. *)
Inductive JsValue : Type :=
| JsString (s : string)
| JsNumber (n : Number)
| JsBoolean (b : bool)
| JsBigInt (negative : bool) (base10Value : string)
| JsUndefined.

Inductive JsTypeof : Type :=
| Typeof_string | Typeof_number | Typeof_boolean | Typeof_object
| Typeof_undefined.

Definition typeof (v : JsValue) : JsTypeof :=
  match v with
  | JsString _ => Typeof_string
  | JsNumber _ => Typeof_number
  | JsBoolean _ => Typeof_boolean
  | JsBigInt _ _ => Typeof_object
  | JsUndefined => Typeof_undefined
  end.

(** A ts-morph [Type] with the answers of the methods parser.ts calls, a
    [Symbol] (a member of an object type) and a declaration [Node].
    [node_getType] is [None] for a declaration with no [getType] method;
    [node_isReadonly] and [node_hasInitializer] are what the declaration
    would answer if asked. *)
Inductive TsType : Type :=
| MkTsType
    (isString isNumber isBoolean : bool)
    (getText : string)
    (isArray : bool) (getArrayElementType : option TsType)
    (isUnion : bool) (getUnionTypes : list TsType)
    (isLiteral : bool) (getLiteralValue : JsValue)
    (isObject : bool) (getProperties : list Symbol)
with Symbol : Type :=
| MkSymbol (sym_getName : string) (sym_getDeclarations : list Node)
    (sym_isOptional : bool)
with Node : Type :=
| MkNode (node_getType : option TsType)
    (node_isReadonly node_hasInitializer : bool).

Definition isString (t : TsType) : bool :=
  match t with MkTsType b _ _ _ _ _ _ _ _ _ _ _ => b end.
Definition isNumber (t : TsType) : bool :=
  match t with MkTsType _ b _ _ _ _ _ _ _ _ _ _ => b end.
Definition isBoolean (t : TsType) : bool :=
  match t with MkTsType _ _ b _ _ _ _ _ _ _ _ _ => b end.
Definition getText (t : TsType) : string :=
  match t with MkTsType _ _ _ s _ _ _ _ _ _ _ _ => s end.
Definition isArray (t : TsType) : bool :=
  match t with MkTsType _ _ _ _ b _ _ _ _ _ _ _ => b end.
Definition getArrayElementType (t : TsType) : option TsType :=
  match t with MkTsType _ _ _ _ _ e _ _ _ _ _ _ => e end.
Definition isUnion (t : TsType) : bool :=
  match t with MkTsType _ _ _ _ _ _ b _ _ _ _ _ => b end.
Definition getUnionTypes (t : TsType) : list TsType :=
  match t with MkTsType _ _ _ _ _ _ _ l _ _ _ _ => l end.
Definition isLiteral (t : TsType) : bool :=
  match t with MkTsType _ _ _ _ _ _ _ _ b _ _ _ => b end.
Definition getLiteralValue (t : TsType) : JsValue :=
  match t with MkTsType _ _ _ _ _ _ _ _ _ v _ _ => v end.
Definition isObject (t : TsType) : bool :=
  match t with MkTsType _ _ _ _ _ _ _ _ _ _ b _ => b end.
Definition getProperties (t : TsType) : list Symbol :=
  match t with MkTsType _ _ _ _ _ _ _ _ _ _ _ l => l end.

Definition sym_getName (s : Symbol) : string :=
  match s with MkSymbol n _ _ => n end.
Definition sym_getDeclarations (s : Symbol) : list Node :=
  match s with MkSymbol _ d _ => d end.
Definition sym_isOptional (s : Symbol) : bool :=
  match s with MkSymbol _ _ o => o end.

Definition node_getType (d : Node) : option TsType :=
  match d with MkNode t _ _ => t end.
Definition node_isReadonly (d : Node) : bool :=
  match d with MkNode _ r _ => r end.
Definition node_hasInitializer (d : Node) : bool :=
  match d with MkNode _ _ i => i end.

(** A [PropertyDeclaration] of a class. *)
Record PropertyDeclaration : Type := MkPropertyDeclaration {
  prop_getName : string;
  prop_getType : TsType;
  prop_hasQuestionToken : bool;
  prop_isReadonly : bool;
  prop_hasInitializer : bool
}.

(** A [ClassDeclaration]; [class_getName] is [None] for an anonymous class. *)
Record ClassDeclaration : Type := MkClassDeclaration {
  class_getName : option string;
  class_isExported : bool;
  class_getProperties : list PropertyDeclaration
}.

(** A [SourceFile]: the path ts-morph gives it and its classes in
    declaration order. *)
Record SourceFile : Type := MkSourceFile {
  sf_getFilePath : string;
  sf_getClasses : list ClassDeclaration
}.

(** What a fresh [Project] sees: the source file at each path, if any. *)
Definition FileSystem : Type := string -> option SourceFile.

(** [project.addSourceFileAtPath(filePath)]. *)
Definition addSourceFileAtPath (fs : FileSystem) (filePath : string)
  : Result SourceFile :=
  match fs filePath with
  | Some sourceFile => Ok sourceFile
  | None => Err (ProviderThrown (FileNotFound filePath))
  end.

Definition optionStringEqb (o : option string) (s : string) : bool :=
  match o with
  | Some n => String.eqb n s
  | None => false
  end.

(** [sourceFile.getClass(className)]: the first class of that name. *)
Definition getClass (sourceFile : SourceFile) (className : string)
  : option ClassDeclaration :=
  find (fun c => optionStringEqb (class_getName c) className)
       (sf_getClasses sourceFile).

(** ** parser.ts *)

(** The callback of [properties.map] in the object branch of
    [parserPropertyType]; [resolve] stands for the recursive call. *)
Definition parseMemberWith (resolve : TsType -> Result PropertyType)
    (symbol : Symbol) : Result Property :=
  match sym_getDeclarations symbol with
  | [] => Err (MissingDeclaration (sym_getName symbol))
  | declaration :: _ =>
      match node_getType declaration with
      | None => Err (CannotGetType (sym_getName symbol))
      | Some propertyType =>
          ty <- resolve propertyType ;;
          Ok (MkProperty (sym_getName symbol) ty
                (sym_isOptional symbol) false false)
      end
  end.

(** [parserPropertyType]: the tests run in the order of the source and the
    first one that holds decides.  [getArrayElementTypeOrThrow] throws when
    the provider has no element type.  A literal whose value is none of
    string, number, boolean leaves the literal test without returning and
    goes on to the object test ([afterLiteral]). *)
Fixpoint parserPropertyType (type : TsType) : Result PropertyType :=
  if isString type then Ok (primitive Pstring)
  else if isNumber type then Ok (primitive Pnumber)
  else if isBoolean type then Ok (primitive Pboolean)
  else
    let typeText := getText type in
    if String.eqb typeText "Date" then Ok (primitive PDate)
    else if isArray type then
      match getArrayElementType type with
      | None => Err (ProviderThrown NoArrayElementType)
      | Some arrayElementType =>
          elementType <- parserPropertyType arrayElementType ;;
          Ok (array elementType)
      end
    else if isUnion type then
      let unionTypes := getUnionTypes type in
      types <- mapM parserPropertyType unionTypes ;;
      Ok (union types)
    else
      let afterLiteral :=
        if isObject type then
          let properties := getProperties type in
          props <- mapM (parseMemberWith parserPropertyType) properties ;;
          Ok (object props)
        else Err (UnsupportedType (getText type))
      in
      if isLiteral type then
        match getLiteralValue type with
        | JsString s => Ok (literal (LitString s))
        | JsNumber n => Ok (literal (LitNumber n))
        | JsBoolean b => Ok (literal (LitBoolean b))
        | JsBigInt _ _ | JsUndefined => afterLiteral
        end
      else afterLiteral.

Definition parseMember : Symbol -> Result Property :=
  parseMemberWith parserPropertyType.

(** [hasQuestionToken()] answers a boolean, so [?? false] changes nothing
    (likewise [symbol.isOptional() ?? false] in [parseMemberWith]). *)
Definition parseProperty (property : PropertyDeclaration) : Result Property :=
  ty <- parserPropertyType (prop_getType property) ;;
  Ok (MkProperty (prop_getName property) ty
        (prop_hasQuestionToken property)
        (prop_isReadonly property)
        (prop_hasInitializer property)).

Definition parseProperties (classDeclaration : ClassDeclaration)
  : Result (list Property) :=
  let properties := class_getProperties classDeclaration in
  mapM parseProperty properties.

Definition parseClass (fs : FileSystem) (filePath className : string)
  : Result ParsedClass :=
  sourceFile <- addSourceFileAtPath fs filePath ;;
  match getClass sourceFile className with
  | None => Err (ClassNotFound className filePath)
  | Some classDeclaration =>
      properties <- parseProperties classDeclaration ;;
      Ok (MkParsedClass className filePath
            (class_isExported classDeclaration) properties)
  end.

(** ** ElysiaTypeBoxGenerator *)

Definition supports (target : string) : bool := String.eqb target "typebox".

Definition getImports : list string :=
  ["import { t } from " ++ dquote ++ "elysia" ++ dquote].

Definition generateSchemaName (className : string) : string :=
  let camelCase :=
    String_toLowerCase (charAt className 0) ++ slice className 1 in
  camelCase ++ "Schema".

Definition generatePrimitiveType (type : PrimitiveName) : string :=
  match type with
  | Pstring => "t.String()"
  | Pnumber => "t.Number()"
  | Pboolean => "t.Boolean()"
  | PDate => "t.Date()"
  end.

(** The template literal converts a number or a boolean with the default
    string conversion. *)
Definition Boolean_toString (b : bool) : string :=
  if b then "true" else "false".

Definition generateLiteralType (value : LiteralValue) : string :=
  match value with
  | LitString s => "t.Literal('" ++ s ++ "')"
  | LitNumber n => "t.Literal(" ++ Number_toString n ++ ")"
  | LitBoolean b => "t.Literal(" ++ Boolean_toString b ++ ")"
  end.

(** [generateObjectType] and [generateUnionType] call back into
    [generateProperty] and [generateType]; the callee is an argument here and
    the recursion is tied below. *)
Definition generateObjectTypeWith (generateProperty : Property -> string)
    (properties : list Property) : string :=
  let props := join ("," ++ newline) (map generateProperty properties) in
  "t.Object({" ++ newline ++ props ++ newline ++ "})".

Definition generateUnionTypeWith (generateType : PropertyType -> string)
    (types : list PropertyType) : string :=
  let typeCodes := join ", " (map generateType types) in
  "t.Union([" ++ typeCodes ++ "])".

Fixpoint generateType (type : PropertyType) : string :=
  match type with
  | primitive p => generatePrimitiveType p
  | array elementType => "t.Array(" ++ generateType elementType ++ ")"
  | object properties => generateObjectTypeWith generateProperty properties
  | union types => generateUnionTypeWith generateType types
  | literal value => generateLiteralType value
  end
with generateProperty (property : Property) : string :=
  match property with
  | MkProperty name type isOptional _ _ =>
      let typeCode := generateType type in
      let code :=
        if isOptional then "t.Optional(" ++ typeCode ++ ")" else typeCode in
      "  " ++ name ++ ": " ++ code
  end.

Definition generateObjectType : list Property -> string :=
  generateObjectTypeWith generateProperty.

Definition generateUnionType : list PropertyType -> string :=
  generateUnionTypeWith generateType.

Definition generateProperties (properties : list Property) : string :=
  join ("," ++ newline) (map generateProperty properties).

Definition generate (parsedClass : ParsedClass) : string :=
  let imports := join newline getImports in
  let schemaName := generateSchemaName (pc_name parsedClass) in
  let properties := generateProperties (pc_properties parsedClass) in
  imports ++ newline ++ newline ++ "export const " ++ schemaName
    ++ " = t.Object({ " ++ newline ++ properties ++ " });".

End Model.

(** ** Fixtures: what the provider answers for concrete declarations

    The fixtures take [Number := Z] with the decimal rendering, which is the
    default string conversion of JavaScript on the small integers used. *)

Definition Z_toString (z : Z) : string := NilZero.string_of_int (Z.to_int z).

(** The lower-case mapping of Unicode on one code unit below 256: the
    letters [A] to [Z] and the Latin-1 capitals (192 to 222, the
    multiplication sign 215 apart) move up by 32, every other code unit
    stays. *)
Definition latin1LowerCase (c : ascii) : ascii :=
  let n := nat_of_ascii c in
  if (Nat.leb 65 n && Nat.leb n 90)%bool then ascii_of_nat (n + 32)
  else if (Nat.leb 192 n && Nat.leb n 222 && negb (Nat.eqb n 215))%bool
       then ascii_of_nat (n + 32)
       else c.

(** [toLowerCase] on the strings the fixtures use, whose code units are
    below 256. *)
Fixpoint Latin1_toLowerCase (s : string) : string :=
  match s with
  | EmptyString => EmptyString
  | String c rest => String (latin1LowerCase c) (Latin1_toLowerCase rest)
  end.

(** A type handle for which every test of the resolver answers no. *)
Definition otherType (text : string) : @TsType Z :=
  MkTsType false false false text false None false [] false JsUndefined
    false [].

Definition stringType : @TsType Z :=
  MkTsType true false false "string" false None false [] false JsUndefined
    false [].

(** The literal type of a string: rendered with double quotes. *)
Definition stringLiteralType (s : string) : @TsType Z :=
  MkTsType false false false (dquote ++ s ++ dquote) false None false []
    true (JsString s) false [].

Definition numberLiteralType (z : Z) : @TsType Z :=
  MkTsType false false false (Z_toString z) false None false []
    true (JsNumber z) false [].

(** [T[]], for any number type: an array type is also an object type for
    the provider. *)
Definition arrayOf {Number : Type} (element : @TsType Number)
  : @TsType Number :=
  MkTsType false false false (getText element ++ "[]") true (Some element)
    false [] false JsUndefined true [].

Definition unionOf (members : list (@TsType Z)) : @TsType Z :=
  MkTsType false false false (join " | " (map getText members)) false None
    true members false JsUndefined false [].

(** A member [name: T] or [name?: T] of a type literal, with the modifiers
    of its declaration. *)
Definition member (name : string) (t : @TsType Z)
    (optional readonly initializer : bool) : @Symbol Z :=
  MkSymbol name [MkNode (Some t) readonly initializer] optional.

Definition typeLiteral (text : string) (members : list (@Symbol Z))
  : @TsType Z :=
  MkTsType false false false text false None false [] false JsUndefined
    true members.

(** The [Date] interface: an object type with members, rendered [Date]. *)
Definition dateType : @TsType Z :=
  MkTsType false false false "Date" false None false [] false JsUndefined
    true [member "getTime" (otherType "() => number") false false false].

(** [class Task { id: string; status: 'pending' | 'active' | 'completed';
    priority: 1 | 2 | 3 }], exported, in the file [union-types.ts]. *)
Definition taskStatusType : @TsType Z :=
  unionOf [stringLiteralType "pending"; stringLiteralType "active";
           stringLiteralType "completed"].

Definition taskPriorityType : @TsType Z :=
  unionOf [numberLiteralType 1; numberLiteralType 2; numberLiteralType 3].

Definition taskClass : @ClassDeclaration Z :=
  MkClassDeclaration (Some "Task") true
    [MkPropertyDeclaration "id" stringType false false false;
     MkPropertyDeclaration "status" taskStatusType false false false;
     MkPropertyDeclaration "priority" taskPriorityType false false false].

Definition taskFiles : @FileSystem Z :=
  fun path =>
    if String.eqb path "tests/fixtures/union-types.ts"
    then Some (MkSourceFile "/repo/tests/fixtures/union-types.ts" [taskClass])
    else None.

(** The [ParsedClass] expected for [Task]. *)
Definition taskParsed : @ParsedClass Z :=
  MkParsedClass "Task" "tests/fixtures/union-types.ts" true
    [MkProperty "id" (primitive Pstring) false false false;
     MkProperty "status"
       (union [literal (LitString "pending"); literal (LitString "active");
               literal (LitString "completed")]) false false false;
     MkProperty "priority"
       (union [literal (LitNumber 1%Z); literal (LitNumber 2%Z);
               literal (LitNumber 3%Z)]) false false false].

(** The two union declarations expected in the code generated for [Task]. *)
Definition taskStatusCode : string :=
  "t.Union([t.Literal('pending'), t.Literal('active'), t.Literal('completed')])".

Definition taskPriorityCode : string :=
  "t.Union([t.Literal(1), t.Literal(2), t.Literal(3)])".

(** A union type for which the provider reports no member. *)
Definition emptyUnionType : @TsType Z := unionOf [].

(** The literal type [true]: a literal for the provider, with no value. *)
Definition trueLiteralType : @TsType Z :=
  MkTsType false false false "true" false None false [] true JsUndefined
    false [].

(** The literal type [10n]: the provider reports the value as an object. *)
Definition bigintLiteralType : @TsType Z :=
  MkTsType false false false "10n" false None false [] true
    (JsBigInt false "10") false [].







(** [{ readonly street: string; city?: string }] with an initializer
    reported for [street]. *)
Definition addressType : @TsType Z :=
  typeLiteral "{ readonly street: string; city?: string; }"
    [member "street" stringType false true true;
     member "city" stringType true false false].

(** ** The order of the tests

    The position of a test in [parserPropertyType]: a handle reaches a test
    when every test before it answers no. *)

Section Tests.

Context {Number : Type}.

Definition primitiveTest (t : @TsType Number) : bool :=
  isString t || isNumber t || isBoolean t.

Definition dateTest (t : @TsType Number) : bool :=
  String.eqb (getText t) "Date".

Definition reachesArrayTest (t : @TsType Number) : Prop :=
  primitiveTest t = false /\ dateTest t = false.

Definition reachesUnionTest (t : @TsType Number) : Prop :=
  reachesArrayTest t /\ isArray t = false.

Definition reachesLiteralTest (t : @TsType Number) : Prop :=
  reachesUnionTest t /\ isUnion t = false.

(** [typeof v] is one of ['string'], ['number'], ['boolean']. *)
Definition representable (v : @JsValue Number) : bool :=
  match typeof v with
  | Typeof_string | Typeof_number | Typeof_boolean => true
  | Typeof_object | Typeof_undefined => false
  end.

(** A fact of the provider: [isLiteral] and [isObject] are read off
    different type flags of the compiler, and no type carries both; a handle
    reported as a literal is not reported as an object. *)
Definition literalNotObject (t : @TsType Number) : Prop :=
  isLiteral t = true -> isObject t = false.


(** The resolution of a declared property succeeds. *)
Definition resolves (p : @PropertyDeclaration Number) : bool :=
  isOk (parserPropertyType (prop_getType p)).

End Tests.

(** ** Structure of handles and of IR trees *)

Section Structure.

Context {Number : Type}.

(** The value the provider reports for a literal type whose IR payload is
    [v]. *)
Definition literalToJs (v : @LiteralValue Number) : @JsValue Number :=
  match v with
  | LitString s => JsString s
  | LitNumber n => JsNumber n
  | LitBoolean b => JsBoolean b
  end.

(** The handle runs through every test of [parserPropertyType] without a
    return and ends at the final [throw]. *)
Definition reachesThrow (t : @TsType Number) : Prop :=
  reachesLiteralTest t /\
  (isLiteral t = false \/ representable (getLiteralValue t) = false) /\
  isObject t = false.

(** The handle reaches the object test and that test holds. *)
Definition decidedByObjectTest (t : @TsType Number) : Prop :=
  reachesLiteralTest t /\
  (isLiteral t = false \/ representable (getLiteralValue t) = false) /\
  isObject t = true.

(** [h] is [t] or one of the handles the resolver can visit below [t]: the
    element type, a union member, or the type of the first declaration of a
    member. *)
Inductive nestedIn (h : @TsType Number) : @TsType Number -> Prop :=
| nested_here : nestedIn h h
| nested_element (t e : @TsType Number) :
    getArrayElementType t = Some e -> nestedIn h e -> nestedIn h t
| nested_union_member (t m : @TsType Number) :
    In m (getUnionTypes t) -> nestedIn h m -> nestedIn h t
| nested_object_member (t : @TsType Number) (symbol : @Symbol Number)
    (declaration : @Node Number) (rest : list (@Node Number))
    (propertyType : @TsType Number) :
    In symbol (getProperties t) ->
    sym_getDeclarations symbol = declaration :: rest ->
    node_getType declaration = Some propertyType ->
    nestedIn h propertyType -> nestedIn h t.

(** Every [Property] record inside the IR tree, at any depth, has
    [isReadonly] and [hasDefaultValue] false. *)
Fixpoint membersUnflagged (X : @PropertyType Number) : bool :=
  match X with
  | primitive _ => true
  | array elementType => membersUnflagged elementType
  | object properties =>
      forallb (fun p =>
                 match p with
                 | MkProperty _ ty _ isReadonly hasDefaultValue =>
                     negb isReadonly && negb hasDefaultValue
                       && membersUnflagged ty
                 end) properties
  | union types => forallb membersUnflagged types
  | literal _ => true
  end.

(** The IR tree with [isReadonly] and [hasDefaultValue] set to false in every
    [Property] record. *)
Fixpoint clearFlags (X : @PropertyType Number) : @PropertyType Number :=
  match X with
  | primitive p => primitive p
  | array elementType => array (clearFlags elementType)
  | object properties => object (map clearPropertyFlags properties)
  | union types => union (map clearFlags types)
  | literal v => literal v
  end
with clearPropertyFlags (p : @Property Number) : @Property Number :=
  match p with
  | MkProperty name ty isOptional _ _ =>
      MkProperty name (clearFlags ty) isOptional false false
  end.

(** The exceptions a run of [parserPropertyType] over a finite tree of
    handles can end with. *)
Definition resolverException (e : Exception) : Prop :=
  match e with
  | Thrown (UnsupportedType _) => True
  | Thrown (MissingDeclaration _) => True
  | Thrown (CannotGetType _) => True
  | ProviderThrown NoArrayElementType => True
  | Thrown (ClassNotFound _ _) => False
  | ProviderThrown (FileNotFound _) => False
  end.

End Structure.

(** [n] copies of [s]. *)
Fixpoint repeatString (n : nat) (s : string) : string :=
  match n with
  | O => EmptyString
  | S m => s ++ repeatString m s
  end.

(** The type [boolean]: the boolean primitive, which the provider also
    reports as the union of [false] and [true]. *)
Definition booleanType : @TsType Z :=
  MkTsType false false true "boolean" false None
    true [otherType "false"; otherType "true"] false JsUndefined false [].

(** [class Empty {}] in [empty.ts], not exported. *)
Definition emptyClass : @ClassDeclaration Z :=
  MkClassDeclaration (Some "Empty") false [].

Definition emptyFiles : @FileSystem Z :=
  fun path =>
    if String.eqb path "empty.ts"
    then Some (MkSourceFile "/repo/empty.ts" [emptyClass])
    else None.

(** [{ id: string; tag }] where the member [tag] has no declaration. *)
Definition undeclaredMemberType : @TsType Z :=
  typeLiteral "{ id: string; tag: any; }"
    [member "id" stringType false false false;
     MkSymbol "tag" [] false].

(** [{ id: string; run }] where the declaration of [run] has no [getType]. *)
Definition untypedMemberType : @TsType Z :=
  typeLiteral "{ id: string; run: any; }"
    [member "id" stringType false false false;
     MkSymbol "run" [MkNode None false false] false].

(** [{ at: Date; keys: symbol[] }]. *)
Definition recordWithSymbolsType : @TsType Z :=
  typeLiteral "{ at: Date; keys: symbol[]; }"
    [member "at" dateType false false false;
     member "keys" (arrayOf (otherType "symbol")) false false false].

(** [{ home: { readonly street: string; city?: string } }]. *)
Definition personType : @TsType Z :=
  typeLiteral "{ home: { readonly street: string; city?: string; }; }"
    [member "home" addressType false true false].

(** [string | symbol | bigint]: the provider reports the members as
    [string], [bigint], [symbol]. *)
Definition mixedUnionType : @TsType Z :=
  MkTsType false false false "string | symbol | bigint" false None
    true [stringType; otherType "bigint"; otherType "symbol"]
    false JsUndefined false [].

(** [taskParsed] read from another file, not exported, with every property
    readonly and initialized. *)
Definition taskParsedFlagged : @ParsedClass Z :=
  MkParsedClass "Task" "/elsewhere/task.ts" false
    [MkProperty "id" (primitive Pstring) false true true;
     MkProperty "status"
       (union [literal (LitString "pending"); literal (LitString "active");
               literal (LitString "completed")]) false true true;
     MkProperty "priority"
       (union [literal (LitNumber 1%Z); literal (LitNumber 2%Z);
               literal (LitNumber 3%Z)]) false true true].

(** * Properties *)

(** ** Lists under a throwing callback *)

Section MapM.

Context {A B : Type}.
Variable f : A -> Result B.

Lemma mapM_nil : mapM f [] = Ok [].
Proof. reflexivity. Qed.

Lemma mapM_cons (x : A) (xs : list A) :
  mapM f (x :: xs) = (y <- f x ;; ys <- mapM f xs ;; Ok (y :: ys)).
Proof. reflexivity. Qed.

(** [map] returns exactly when the callback returns on every element, with
    the results in the order of the elements. *)
Lemma mapM_Ok_iff (l : list A) (ys : list B) :
  mapM f l = Ok ys <-> Forall2 (fun x y => f x = Ok y) l ys.
Proof.
  revert ys. induction l as [| x xs IH]; intros ys.
  - rewrite mapM_nil. split.
    + intros H. injection H as <-. constructor.
    + intros H. inversion H. reflexivity.
  - rewrite mapM_cons. split.
    + intros H. destruct (f x) as [y | e] eqn:Hx; simpl in H; [| discriminate].
      destruct (mapM f xs) as [zs | e] eqn:Hxs; simpl in H; [| discriminate].
      injection H as <-. constructor; [exact Hx |]. apply IH. reflexivity.
    + intros H. inversion H as [| x' y l' zs Hx Hrest]; subst.
      rewrite Hx. simpl. apply IH in Hrest. rewrite Hrest. reflexivity.
Qed.

Lemma mapM_length (l : list A) (ys : list B) :
  mapM f l = Ok ys -> List.length ys = List.length l.
Proof.
  intros H. apply mapM_Ok_iff in H.
  induction H; simpl; congruence.
Qed.

(** The exception of the first element on which the callback throws is the
    exception of [map]. *)
Lemma mapM_first_error (before after : list A) (x : A) (e : Exception) :
  Forall (fun q => isOk (f q) = true) before ->
  f x = Err e ->
  mapM f (before ++ x :: after)%list = Err e.
Proof.
  intros Hbefore Hx. induction Hbefore as [| q qs Hq _ IH].
  - simpl app. rewrite mapM_cons, Hx. reflexivity.
  - simpl app. rewrite mapM_cons.
    destruct (f q) as [y | e']; [| discriminate]. simpl.
    rewrite IH. reflexivity.
Qed.


End MapM.

(** ** Strings *)

Lemma substring_0_0 (s : string) : substring 0 0 s = EmptyString.
Proof. destruct s; reflexivity. Qed.

Lemma substring_0_length (s : string) : substring 0 (String.length s) s = s.
Proof. induction s as [| c s IH]; simpl; [reflexivity | now rewrite IH]. Qed.

Lemma charAt_0_String (c : ascii) (rest : string) :
  charAt (String c rest) 0 = String c EmptyString.
Proof. unfold charAt. simpl. now rewrite substring_0_0. Qed.

Lemma slice_1_String (c : ascii) (rest : string) :
  slice (String c rest) 1 = rest.
Proof.
  unfold slice. simpl. rewrite Nat.sub_0_r. apply substring_0_length.
Qed.

Lemma length_append (s1 s2 : string) :
  String.length (s1 ++ s2) = String.length s1 + String.length s2.
Proof. induction s1 as [| c s1 IH]; simpl; [reflexivity | now rewrite IH]. Qed.

Lemma append_assoc (a b c : string) : (a ++ b) ++ c = a ++ (b ++ c).
Proof. induction a as [| x a IH]; simpl; [reflexivity | now rewrite IH]. Qed.

Lemma append_empty_r (a : string) : a ++ EmptyString = a.
Proof. induction a as [| x a IH]; simpl; [reflexivity | now rewrite IH]. Qed.

(** A suffix can be cancelled. *)
Lemma append_cancel_r (a b x : string) : a ++ x = b ++ x -> a = b.
Proof.
  revert b. induction a as [| c a IH]; intros [| d b] H; simpl in H.
  - reflexivity.
  - apply (f_equal String.length) in H. simpl in H.
    rewrite length_append in H. lia.
  - apply (f_equal String.length) in H. simpl in H.
    rewrite length_append in H. lia.
  - injection H as -> H. f_equal. apply IH. exact H.
Qed.

(** The rendering [T[]] of an array type is never the name [Date]. *)
Lemma array_text_not_Date (s : string) : String.eqb (s ++ "[]") "Date" = false.
Proof.
  apply String.eqb_neq. intros H.
  destruct s as [| c1 [| c2 [| c3 [| c4 s]]]]; simpl in H; try discriminate.
  injection H as _ _ _ _ H. destruct s; discriminate.
Qed.

(** ** The type resolver *)

Section Resolver.

Context {Number : Type}.
Implicit Types (t e : @TsType Number) (X : @PropertyType Number).

(** One step of [parserPropertyType]. *)
Lemma parserPropertyType_unfold t :
  parserPropertyType t =
  if isString t then Ok (primitive Pstring)
  else if isNumber t then Ok (primitive Pnumber)
  else if isBoolean t then Ok (primitive Pboolean)
  else if String.eqb (getText t) "Date" then Ok (primitive PDate)
  else if isArray t then
    match getArrayElementType t with
    | None => Err (ProviderThrown NoArrayElementType)
    | Some arrayElementType =>
        elementType <- parserPropertyType arrayElementType ;;
        Ok (array elementType)
    end
  else if isUnion t then
    types <- mapM parserPropertyType (getUnionTypes t) ;; Ok (union types)
  else
    let afterLiteral :=
      if isObject t then
        props <- mapM parseMember (getProperties t) ;; Ok (object props)
      else Err (UnsupportedType (getText t)) in
    if isLiteral t then
      match getLiteralValue t with
      | JsString s => Ok (literal (LitString s))
      | JsNumber n => Ok (literal (LitNumber n))
      | JsBoolean b => Ok (literal (LitBoolean b))
      | JsBigInt _ _ | JsUndefined => afterLiteral
      end
    else afterLiteral.
Proof. destruct t; reflexivity. Qed.

Lemma primitiveTest_false t :
  primitiveTest t = false ->
  isString t = false /\ isNumber t = false /\ isBoolean t = false.
Proof.
  unfold primitiveTest. intros H.
  apply orb_false_iff in H as [H Hb]. apply orb_false_iff in H as [Hs Hn].
  auto.
Qed.

(** Rewrites [parserPropertyType t] up to the test that [t] reaches. *)
Ltac at_test t H :=
  rewrite (parserPropertyType_unfold t);
  repeat match type of H with
         | reachesLiteralTest _ => destruct H as [H ?HnotUnion]
         | reachesUnionTest _ => destruct H as [H ?HnotArray]
         | reachesArrayTest _ =>
             let Hp := fresh "Hp" in
             let Hd := fresh "Hd" in
             destruct H as [Hp Hd];
             apply primitiveTest_false in Hp as (?Hs & ?Hn & ?Hb);
             unfold dateTest in Hd
         end;
  repeat match goal with
         | E : _ = false |- _ => rewrite E; clear E
         end.

Lemma resolve_at_array_test t :
  reachesArrayTest t -> isArray t = true ->
  parserPropertyType t =
  match getArrayElementType t with
  | None => Err (ProviderThrown NoArrayElementType)
  | Some element => X <- parserPropertyType element ;; Ok (array X)
  end.
Proof. intros H Harr. at_test t H. rewrite Harr. reflexivity. Qed.

Lemma resolve_at_union_test t :
  reachesUnionTest t -> isUnion t = true ->
  parserPropertyType t =
  (types <- mapM parserPropertyType (getUnionTypes t) ;; Ok (union types)).
Proof. intros H Hu. at_test t H. rewrite Hu. reflexivity. Qed.

(** Where the literal test does not return, the object test and then the
    final [throw] follow. *)
Lemma resolve_after_literal_test t :
  reachesLiteralTest t ->
  isLiteral t = false \/ representable (getLiteralValue t) = false ->
  parserPropertyType t =
  if isObject t then
    props <- mapM parseMember (getProperties t) ;; Ok (object props)
  else Err (UnsupportedType (getText t)).
Proof.
  intros H Hlit. at_test t H. cbv zeta.
  destruct (isLiteral t); [| reflexivity].
  destruct Hlit as [Hlit | Hlit]; [discriminate |].
  destruct (getLiteralValue t); try discriminate; reflexivity.
Qed.

(** What a successful [parseMember] returns. *)
Lemma parseMember_Ok (symbol : @Symbol Number) (p : @Property Number) :
  parseMember symbol = Ok p ->
  exists declaration rest propertyType ty,
    sym_getDeclarations symbol = declaration :: rest /\
    node_getType declaration = Some propertyType /\
    parserPropertyType propertyType = Ok ty /\
    p = MkProperty (sym_getName symbol) ty (sym_isOptional symbol)
          false false.
Proof.
  unfold parseMember, parseMemberWith. intros H.
  destruct (sym_getDeclarations symbol) as [| declaration rest] eqn:Hdecl;
    [discriminate |].
  destruct (node_getType declaration) as [propertyType |] eqn:Hget;
    [| discriminate].
  destruct (parserPropertyType propertyType) as [ty | e] eqn:Hty;
    simpl in H; [| discriminate].
  injection H as <-. exists declaration, rest, propertyType, ty.
  repeat split; assumption.
Qed.

(** An object node comes from the object test only. *)
Lemma resolve_object_inv t (props : list (@Property Number)) :
  parserPropertyType t = Ok (object props) ->
  isObject t = true /\ mapM parseMember (getProperties t) = Ok props.
Proof.
  rewrite parserPropertyType_unfold. cbv zeta.
  destruct (isString t); [discriminate |].
  destruct (isNumber t); [discriminate |].
  destruct (isBoolean t); [discriminate |].
  destruct (String.eqb (getText t) "Date"); [discriminate |].
  destruct (isArray t).
  { destruct (getArrayElementType t) as [e |]; [| discriminate].
    destruct (parserPropertyType e); discriminate. }
  destruct (isUnion t).
  { destruct (mapM parserPropertyType (getUnionTypes t)); discriminate. }
  assert (Hobj :
    (if isObject t
     then props0 <- mapM parseMember (getProperties t) ;; Ok (object props0)
     else Err (UnsupportedType (getText t))) = Ok (object props) ->
    isObject t = true /\ mapM parseMember (getProperties t) = Ok props).
  { destruct (isObject t); [| discriminate].
    destruct (mapM parseMember (getProperties t)) as [ps | e];
      simpl; [| discriminate].
    intros H. injection H as <-. auto. }
  destruct (isLiteral t); [| exact Hobj].
  destruct (getLiteralValue t); try discriminate; exact Hobj.
Qed.

(** A literal node comes from the literal test only, with a representable
    value. *)
Lemma resolve_literal_inv t (v : @LiteralValue Number) :
  parserPropertyType t = Ok (literal v) ->
  isLiteral t = true /\ representable (getLiteralValue t) = true.
Proof.
  rewrite parserPropertyType_unfold. cbv zeta.
  destruct (isString t); [discriminate |].
  destruct (isNumber t); [discriminate |].
  destruct (isBoolean t); [discriminate |].
  destruct (String.eqb (getText t) "Date"); [discriminate |].
  destruct (isArray t).
  { destruct (getArrayElementType t) as [e |]; [| discriminate].
    destruct (parserPropertyType e); discriminate. }
  destruct (isUnion t).
  { destruct (mapM parserPropertyType (getUnionTypes t)); discriminate. }
  assert (Hobj :
    (if isObject t
     then props0 <- mapM parseMember (getProperties t) ;; Ok (object props0)
     else Err (UnsupportedType (getText t))) <> Ok (literal v)).
  { destruct (isObject t); [| discriminate].
    destruct (mapM parseMember (getProperties t)); discriminate. }
  destruct (isLiteral t); [| intros H; contradiction].
  destruct (getLiteralValue t); auto; intros H; contradiction.
Qed.

End Resolver.

(** ** Properties of the resolver *)

Section ResolverProperties.

Context {Number : Type}.
Implicit Types (t e : @TsType Number) (X : @PropertyType Number).

Lemma arrayOf_reaches_array_test e : reachesArrayTest (arrayOf e).
Proof.
  split; [reflexivity |]. unfold dateTest. simpl. apply array_text_not_Date.
Qed.

Lemma resolve_arrayOf e X :
  parserPropertyType e = Ok X -> parserPropertyType (arrayOf e) = Ok (array X).
Proof.
  intros H. rewrite resolve_at_array_test;
    [| apply arrayOf_reaches_array_test | reflexivity].
  simpl. rewrite H. reflexivity.
Qed.

(** [n] array types around [e] resolve to [n] array nodes around its IR. *)
Lemma resolve_nested_arrays (n : nat) e X :
  parserPropertyType e = Ok X ->
  parserPropertyType (Nat.iter n arrayOf e) = Ok (Nat.iter n array X).
Proof.
  intros H. induction n as [| n IH]; simpl; [exact H |].
  apply resolve_arrayOf. exact IH.
Qed.

(** C2 (as amended): a handle that reaches the union test and is a union
    resolves to a union node exactly when every member type resolves; the
    node holds the resolved members in the order the provider reports them.
    No minimum number of members is required: with no member the result is
    the union node with an empty list. *)
Theorem C2_union_resolves_members_in_order t :
  reachesUnionTest t -> isUnion t = true ->
  (forall X,
     parserPropertyType t = Ok X <->
     exists types,
       X = union types /\
       Forall2 (fun m x => parserPropertyType m = Ok x)
         (getUnionTypes t) types) /\
  (getUnionTypes t = [] -> parserPropertyType t = Ok (union [])).
Proof.
  intros Hreach Hunion. rewrite (resolve_at_union_test t Hreach Hunion).
  split.
  - intros X. split.
    + intros H.
      destruct (mapM parserPropertyType (getUnionTypes t)) as [types | err]
        eqn:Hmap; simpl in H; [| discriminate].
      injection H as <-. exists types. split; [reflexivity |].
      apply mapM_Ok_iff. exact Hmap.
    + intros (types & -> & Hall). apply mapM_Ok_iff in Hall.
      rewrite Hall. reflexivity.
  - intros ->. reflexivity.
Qed.

(** C3: a handle that reaches the literal test and is a literal whose value
    is not a string, a number or a boolean does not resolve to a literal
    node: it reaches the final [throw] and fails with [UnsupportedType]
    carrying its textual rendering.  The object test stands between the
    literal test and the [throw]; it does not hold, since the provider
    reports no literal type as an object type ([literalNotObject]). *)
Theorem C3_unrepresentable_literal_is_unsupported t :
  reachesLiteralTest t -> isLiteral t = true ->
  representable (getLiteralValue t) = false ->
  literalNotObject t ->
  (forall v, parserPropertyType t <> Ok (literal v)) /\
  parserPropertyType t = Err (UnsupportedType (getText t)) /\
  message (UnsupportedType (getText t)) = "Unsupported type: " ++ getText t.
Proof.
  intros Hreach Hlit Hvalue Hexclusive. split; [| split].
  - intros v H. apply resolve_literal_inv in H as [_ H]. congruence.
  - rewrite resolve_after_literal_test by auto.
    rewrite (Hexclusive Hlit). reflexivity.
  - reflexivity.
Qed.

(** C5: a handle that is not a string, number or boolean primitive and whose
    textual rendering is exactly [Date] resolves to [primitive PDate],
    whatever the array, union, literal and object tests would answer; in
    particular it never resolves to an object node. *)
Theorem C5_Date_text_resolves_to_date t :
  isString t = false -> isNumber t = false -> isBoolean t = false ->
  getText t = "Date" ->
  parserPropertyType t = Ok (primitive PDate) /\
  (forall props, parserPropertyType t <> Ok (object props)).
Proof.
  intros Hs Hn Hb Htext.
  assert (H : parserPropertyType t = Ok (primitive PDate)).
  { rewrite parserPropertyType_unfold, Hs, Hn, Hb, Htext. reflexivity. }
  split; [exact H |]. intros props. rewrite H. discriminate.
Qed.

(** C6: an array handle (one that reaches the array test) whose element
    type resolves to [X] resolves to [array X]; the same holds again for
    every further array type around it, to any depth. *)
Theorem C6_array_resolution_is_recursive t e X :
  reachesArrayTest t -> isArray t = true ->
  getArrayElementType t = Some e ->
  parserPropertyType e = Ok X ->
  parserPropertyType t = Ok (array X) /\
  (forall n : nat,
     parserPropertyType (Nat.iter n arrayOf t)
     = Ok (Nat.iter n array (array X))).
Proof.
  intros Hreach Harr Helem HX.
  assert (H : parserPropertyType t = Ok (array X)).
  { rewrite (resolve_at_array_test t Hreach Harr), Helem, HX. reflexivity. }
  split; [exact H |]. intros n. apply resolve_nested_arrays. exact H.
Qed.

(** C7: when a handle resolves to an object node, its properties are the
    members the provider reports, in order; each takes its name and its
    optional flag from the member symbol and its type from the resolution of
    the type of the first declaration, and has [isReadonly] and
    [hasDefaultValue] false whatever the declaration says. *)
Theorem C7_object_members_have_flags_false t
    (props : list (@Property Number)) :
  parserPropertyType t = Ok (object props) ->
  Forall2
    (fun symbol p =>
       name p = sym_getName symbol /\
       isOptional p = sym_isOptional symbol /\
       isReadonly p = false /\
       hasDefaultValue p = false /\
       exists declaration rest propertyType,
         sym_getDeclarations symbol = declaration :: rest /\
         node_getType declaration = Some propertyType /\
         parserPropertyType propertyType = Ok (type p))
    (getProperties t) props.
Proof.
  intros H. apply resolve_object_inv in H as [_ H].
  apply mapM_Ok_iff in H.
  induction H as [| symbol p symbols ps Hp _ IH]; constructor; [| exact IH].
  apply parseMember_Ok in Hp
    as (declaration & rest & propertyType & ty & Hd & Hg & Hty & ->).
  simpl. repeat split.
  exists declaration, rest, propertyType. auto.
Qed.

End ResolverProperties.

(** ** Properties of the class parser *)

Section ParserProperties.

Context {Number : Type}.
Implicit Types (fs : @FileSystem Number) (p q r : @PropertyDeclaration Number).


Lemma parseProperty_Err q (e : Exception) :
  parserPropertyType (prop_getType q) = Err e -> parseProperty q = Err e.
Proof. unfold parseProperty. intros ->. reflexivity. Qed.


Lemma resolution_fails q :
  resolves q = false -> exists e, parserPropertyType (prop_getType q) = Err e.
Proof.
  unfold resolves.
  destruct (parserPropertyType (prop_getType q)) as [ty | e];
    [discriminate | eauto].
Qed.

(** [parseClass] on a class that is found. *)
Lemma parseClass_found fs (filePath className : string)
    (sourceFile : @SourceFile Number)
    (classDeclaration : @ClassDeclaration Number) :
  fs filePath = Some sourceFile ->
  getClass sourceFile className = Some classDeclaration ->
  parseClass fs filePath className =
  (properties <- mapM parseProperty (class_getProperties classDeclaration) ;;
   Ok (MkParsedClass className filePath
         (class_isExported classDeclaration) properties)).
Proof.
  intros Hfile Hclass. unfold parseClass, addSourceFileAtPath.
  rewrite Hfile. simpl. rewrite Hclass. reflexivity.
Qed.


(** C10: a [ParsedClass] returned by [parseClass] carries the requested
    class name and the given file path, the two arguments themselves. *)
Theorem C10_parseClass_copies_its_arguments
    fs (filePath className : string) (pc : @ParsedClass Number) :
  parseClass fs filePath className = Ok pc ->
  pc_name pc = className /\ pc_filePath pc = filePath.
Proof.
  unfold parseClass, addSourceFileAtPath. intros H.
  destruct (fs filePath) as [sourceFile |]; simpl in H; [| discriminate].
  destruct (getClass sourceFile className) as [classDeclaration |];
    [| discriminate].
  destruct (parseProperties classDeclaration) as [properties | e];
    simpl in H; [| discriminate].
  injection H as <-. split; reflexivity.
Qed.

End ParserProperties.

(** ** Properties of the TypeBox generator *)

Section GeneratorProperties.

Context {Number : Type}.
Variable Number_toString : Number -> string.
Variable String_toLowerCase : string -> string.

Lemma generateType_union (types : list (@PropertyType Number)) :
  generateType Number_toString (union types) =
  "t.Union([" ++ join ", " (map (generateType Number_toString) types) ++ "])".
Proof. reflexivity. Qed.

(** A union of literal nodes is rendered as the literals in the order of the
    node. *)
Lemma generateType_union_of_literals (values : list (@LiteralValue Number)) :
  generateType Number_toString (union (map literal values)) =
  "t.Union(["
    ++ join ", " (map (generateLiteralType Number_toString) values) ++ "])".
Proof. rewrite generateType_union, map_map. reflexivity. Qed.

Lemma generateSchemaName_String (c : ascii) (rest : string) :
  generateSchemaName String_toLowerCase (String c rest)
  = String_toLowerCase (String c EmptyString) ++ rest ++ "Schema".
Proof.
  unfold generateSchemaName. rewrite charAt_0_String, slice_1_String.
  apply append_assoc.
Qed.

(** C8: the schema name is the lower-casing of the first character of the
    class name, then the rest of the class name unchanged, then [Schema];
    with [U] lower-cased to [u], [UserProfile] gives [userProfileSchema].
    The output is the import statements, a blank line and the exported
    declaration of that name. *)
Theorem C8_schema_name_and_output_layout :
  String_toLowerCase "U" = "u" ->
  (forall (c : ascii) (rest : string),
     generateSchemaName String_toLowerCase (String c rest)
     = String_toLowerCase (String c EmptyString) ++ rest ++ "Schema") /\
  generateSchemaName String_toLowerCase "UserProfile"
  = "userProfileSchema" /\
  (forall parsedClass : @ParsedClass Number,
     generate Number_toString String_toLowerCase parsedClass =
     join newline getImports ++ newline ++ newline
       ++ "export const "
       ++ generateSchemaName String_toLowerCase (pc_name parsedClass)
       ++ " = t.Object({ " ++ newline
       ++ generateProperties Number_toString (pc_properties parsedClass)
       ++ " });").
Proof.
  intros HU. split; [exact generateSchemaName_String |]. split.
  - rewrite generateSchemaName_String, HU. reflexivity.
  - reflexivity.
Qed.

(** C9: a literal node with a string value [v] is rendered as
    [t.Literal('], then [v] unchanged, then [')]: nothing is escaped, so the
    output is 13 characters longer than [v]; a number or a boolean is
    rendered bare, by its default string conversion. *)
Theorem C9_literal_rendering_is_verbatim :
  (forall v : string,
     generateType Number_toString (literal (LitString v))
     = "t.Literal('" ++ v ++ "')") /\
  (forall v : string,
     String.length (generateType Number_toString (literal (LitString v)))
     = String.length v + 13) /\
  generateType Number_toString (literal (LitString "it's a \ path"))
  = "t.Literal('it's a \ path')" /\
  (forall n : Number,
     generateType Number_toString (literal (LitNumber n))
     = "t.Literal(" ++ Number_toString n ++ ")") /\
  (forall b : bool,
     generateType Number_toString (literal (LitBoolean b))
     = "t.Literal(" ++ (if b then "true" else "false") ++ ")").
Proof.
  repeat split.
  intros v. cbn [generateType generateLiteralType].
  rewrite !length_append. simpl. lia.
Qed.

End GeneratorProperties.

(** * The properties on concrete declarations *)

(** C1: for [class Task { id: string; status: 'pending' | 'active' |
    'completed'; priority: 1 | 2 | 3 }], [parseClass] followed by [generate]
    gives code with exactly two union declarations, each with exactly three
    literal alternatives: [pending], [active], [completed] and [1], [2],
    [3], in the declared order. *)
Theorem C1_task_round_trip :
  parseClass taskFiles "tests/fixtures/union-types.ts" "Task" = Ok taskParsed /\
  map type (pc_properties taskParsed) =
    [primitive Pstring;
     union [literal (LitString "pending"); literal (LitString "active");
            literal (LitString "completed")];
     union [literal (LitNumber 1%Z); literal (LitNumber 2%Z);
            literal (LitNumber 3%Z)]] /\
  generate Z_toString Latin1_toLowerCase taskParsed =
    join newline getImports ++ newline ++ newline
      ++ "export const taskSchema = t.Object({ " ++ newline
      ++ "  id: t.String()," ++ newline
      ++ "  status: " ++ taskStatusCode ++ "," ++ newline
      ++ "  priority: " ++ taskPriorityCode ++ " });" /\
  occurrences "t.Union([" (generate Z_toString Latin1_toLowerCase taskParsed) = 2 /\
  occurrences "t.Literal(" (generate Z_toString Latin1_toLowerCase taskParsed) = 6 /\
  occurrences "t.Literal(" taskStatusCode = 3 /\
  occurrences "t.Literal(" taskPriorityCode = 3.
Proof.
  repeat split; reflexivity.
Qed.

(** The claim C2 as stated fails on a union for which the provider reports no
    member: the resolver returns the union node with an empty list. *)
Lemma C2_empty_union_is_returned :
  reachesUnionTest emptyUnionType /\
  isUnion emptyUnionType = true /\
  getUnionTypes emptyUnionType = [] /\
  parserPropertyType emptyUnionType = Ok (union []) /\
  ~ (exists e, parserPropertyType emptyUnionType = Err e).
Proof.
  repeat split; try reflexivity. intros [e H]. discriminate H.
Qed.

Lemma C2_union_witness :
  reachesUnionTest taskStatusType /\
  isUnion taskStatusType = true /\
  parserPropertyType taskStatusType
  = Ok (union [literal (LitString "pending"); literal (LitString "active");
               literal (LitString "completed")]).
Proof.
  assert (Hreach : reachesUnionTest taskStatusType)
    by (repeat split; reflexivity).
  assert (Hunion : isUnion taskStatusType = true) by reflexivity.
  split; [exact Hreach |]. split; [exact Hunion |].
  destruct (C2_union_resolves_members_in_order taskStatusType Hreach Hunion)
    as [Hiff _].
  apply Hiff. eexists. split; [reflexivity |].
  repeat constructor.
Defined.

(** The literal type [true] has no value for the provider and ends at the
    final [throw]. *)
Lemma C3_true_literal_witness :
  reachesLiteralTest trueLiteralType /\
  isLiteral trueLiteralType = true /\
  representable (getLiteralValue trueLiteralType) = false /\
  literalNotObject trueLiteralType /\
  parserPropertyType trueLiteralType = Err (UnsupportedType "true").
Proof.
  assert (Hreach : reachesLiteralTest trueLiteralType)
    by (repeat split; reflexivity).
  assert (Hexclusive : literalNotObject trueLiteralType)
    by (intros _; reflexivity).
  split; [exact Hreach |]. do 2 (split; [reflexivity |]).
  split; [exact Hexclusive |].
  apply (C3_unrepresentable_literal_is_unsupported trueLiteralType
           Hreach eq_refl eq_refl Hexclusive).
Defined.

(** The bigint literal [10n], whose value is an object for [typeof], ends at
    the final [throw] as well. *)
Example bigint_literal_is_unsupported :
  representable (getLiteralValue bigintLiteralType) = false /\
  parserPropertyType bigintLiteralType = Err (UnsupportedType "10n").
Proof. split; reflexivity. Qed.



Lemma C5_Date_witness :
  isString dateType = false /\ isNumber dateType = false /\
  isBoolean dateType = false /\ getText dateType = "Date" /\
  isObject dateType = true /\
  parserPropertyType dateType = Ok (primitive PDate).
Proof.
  repeat (split; [reflexivity |]).
  apply (C5_Date_text_resolves_to_date dateType eq_refl eq_refl eq_refl
           eq_refl).
Defined.

(** [string[][]] resolves to [array (array (primitive Pstring))]. *)
Lemma C6_nested_array_witness :
  reachesArrayTest (arrayOf stringType) /\
  isArray (arrayOf stringType) = true /\
  getArrayElementType (arrayOf stringType) = Some stringType /\
  parserPropertyType stringType = Ok (primitive Pstring) /\
  getText (arrayOf (arrayOf stringType)) = "string[][]" /\
  parserPropertyType (arrayOf (arrayOf stringType))
  = Ok (array (array (primitive Pstring))).
Proof.
  assert (Hreach : reachesArrayTest (arrayOf stringType))
    by (split; reflexivity).
  repeat (split; [first [exact Hreach | reflexivity] |]).
  destruct (C6_array_resolution_is_recursive (arrayOf stringType) stringType
              (primitive Pstring) Hreach eq_refl eq_refl eq_refl)
    as [_ Hdepth].
  exact (Hdepth 1).
Defined.

(** The members of [{ readonly street: string; city?: string }] lose the
    readonly modifier and the initializer. *)
Lemma C7_address_witness :
  parserPropertyType addressType
  = Ok (object [MkProperty "street" (primitive Pstring) false false false;
                MkProperty "city" (primitive Pstring) true false false]) /\
  map (fun symbol =>
         map (fun d => (node_isReadonly d, node_hasInitializer d))
           (sym_getDeclarations symbol))
    (getProperties addressType)
  = [[(true, true)]; [(false, false)]] /\
  Forall2
    (fun symbol p =>
       name p = sym_getName symbol /\
       isOptional p = sym_isOptional symbol /\
       isReadonly p = false /\
       hasDefaultValue p = false /\
       exists declaration rest propertyType,
         sym_getDeclarations symbol = declaration :: rest /\
         node_getType declaration = Some propertyType /\
         parserPropertyType propertyType = Ok (type p))
    (getProperties addressType)
    [MkProperty "street" (primitive Pstring) false false false;
     MkProperty "city" (primitive Pstring) true false false].
Proof.
  repeat (split; [reflexivity |]).
  apply (C7_object_members_have_flags_false addressType _ eq_refl).
Defined.

(** With the lower-case mapping on code units below 256. *)
Lemma C8_UserProfile_witness :
  Latin1_toLowerCase "U" = "u" /\
  generateSchemaName Latin1_toLowerCase "UserProfile" = "userProfileSchema".
Proof.
  split; [reflexivity |].
  apply (C8_schema_name_and_output_layout Z_toString Latin1_toLowerCase
           eq_refl).
Defined.

(** The path kept in the result is the argument, not the path the provider
    gives the source file. *)
Lemma C10_task_witness :
  parseClass taskFiles "tests/fixtures/union-types.ts" "Task" = Ok taskParsed /\
  option_map sf_getFilePath (taskFiles "tests/fixtures/union-types.ts")
  = Some "/repo/tests/fixtures/union-types.ts" /\
  pc_name taskParsed = "Task" /\
  pc_filePath taskParsed = "tests/fixtures/union-types.ts".
Proof.
  repeat (split; [reflexivity |]).
  apply (C10_parseClass_copies_its_arguments taskFiles
           "tests/fixtures/union-types.ts" "Task" taskParsed eq_refl).
Defined.

(** * Further properties of the resolver *)

(** ** Induction over the handles below a handle *)

Section HandleInduction.

Context {Number : Type}.
Variable P : @TsType Number -> Prop.

Hypothesis step :
  forall t : @TsType Number,
    (forall e, getArrayElementType t = Some e -> P e) ->
    Forall P (getUnionTypes t) ->
    Forall
      (fun symbol =>
         forall declaration rest propertyType,
           sym_getDeclarations symbol = declaration :: rest ->
           node_getType declaration = Some propertyType ->
           P propertyType)
      (getProperties t) ->
    P t.

Lemma TsType_nested_ind : forall t : @TsType Number, P t.
Proof.
  fix IH 1. intros t. apply step; destruct t as
    [s n b txt arr elem un members lit v obj props]; simpl.
  - intros e He. destruct elem as [e' |]; [| discriminate].
    injection He as <-. apply IH.
  - induction members as [| m members IHm]; constructor;
      [apply IH | exact IHm].
  - induction props as [| symbol props IHp]; constructor; [| exact IHp].
    intros declaration rest propertyType Hd Hg.
    destruct symbol as [nm decls opt]. simpl in Hd.
    destruct decls as [| d decls]; [discriminate |].
    injection Hd as <- <-.
    destruct d as [ty r i]. simpl in Hg.
    destruct ty as [ty |]; [| discriminate].
    injection Hg as <-. apply IH.
Qed.

End HandleInduction.

Section MapMErrors.

Context {A B : Type}.
Variable f : A -> Result B.

(** An exception of [map] is the exception of the callback on an element. *)
Lemma mapM_Err_inv (l : list A) (e : Exception) :
  mapM f l = Err e -> exists x, In x l /\ f x = Err e.
Proof.
  induction l as [| a l IH]; [discriminate |].
  rewrite mapM_cons. destruct (f a) as [y | e'] eqn:Ha; simpl.
  - destruct (mapM f l) as [ys | e'']; simpl; [discriminate |].
    intros H. injection H as ->.
    destruct (IH eq_refl) as (x & Hin & Hx). exists x. split; [right |]; auto.
  - intros H. injection H as ->. exists a. split; [left |]; auto.
Qed.

End MapMErrors.

(** ** Which test decides *)

Section Decision.

Context {Number : Type}.
Implicit Types (t e h : @TsType Number) (X : @PropertyType Number).

Lemma representable_literalToJs (v : @LiteralValue Number) :
  representable (literalToJs v) = true.
Proof. destruct v; reflexivity. Qed.

Lemma representable_inv (j : @JsValue Number) :
  representable j = true -> exists v, j = literalToJs v.
Proof.
  destruct j as [s | n | b | neg digits |]; try discriminate; intros _.
  - exists (LitString s). reflexivity.
  - exists (LitNumber n). reflexivity.
  - exists (LitBoolean b). reflexivity.
Qed.

(** A literal handle with a representable value resolves to the literal
    node of that value. *)
Lemma resolve_at_literal_test t (v : @LiteralValue Number) :
  reachesLiteralTest t -> isLiteral t = true ->
  getLiteralValue t = literalToJs v ->
  parserPropertyType t = Ok (literal v).
Proof.
  intros [[[Hp Hd] Harr] Hun] Hlit Hv.
  apply primitiveTest_false in Hp as (Hs & Hn & Hb). unfold dateTest in Hd.
  rewrite parserPropertyType_unfold, Hs, Hn, Hb, Hd, Harr, Hun, Hlit, Hv.
  destruct v; reflexivity.
Qed.

Lemma resolve_at_primitive_test t :
  primitiveTest t = true ->
  parserPropertyType t =
  Ok (primitive (if isString t then Pstring
                 else if isNumber t then Pnumber else Pboolean)).
Proof.
  unfold primitiveTest. intros H. rewrite parserPropertyType_unfold.
  destruct (isString t); [reflexivity |].
  destruct (isNumber t); [reflexivity |].
  destruct (isBoolean t); [reflexivity | discriminate].
Qed.

Lemma resolve_at_date_test t :
  primitiveTest t = false -> dateTest t = true ->
  parserPropertyType t = Ok (primitive PDate).
Proof.
  intros Hp Hd. apply primitiveTest_false in Hp as (Hs & Hn & Hb).
  unfold dateTest in Hd.
  rewrite parserPropertyType_unfold, Hs, Hn, Hb, Hd. reflexivity.
Qed.

(** The seven ways [parserPropertyType] ends, by the first test that
    holds. *)
Lemma resolve_cases t :
  (primitiveTest t = true /\
   parserPropertyType t =
   Ok (primitive (if isString t then Pstring
                  else if isNumber t then Pnumber else Pboolean)))
  \/ (primitiveTest t = false /\ dateTest t = true /\
      parserPropertyType t = Ok (primitive PDate))
  \/ (reachesArrayTest t /\ isArray t = true /\
      parserPropertyType t =
      match getArrayElementType t with
      | None => Err (ProviderThrown NoArrayElementType)
      | Some element => X <- parserPropertyType element ;; Ok (array X)
      end)
  \/ (reachesUnionTest t /\ isUnion t = true /\
      parserPropertyType t =
      (types <- mapM parserPropertyType (getUnionTypes t) ;;
       Ok (union types)))
  \/ (reachesLiteralTest t /\ isLiteral t = true /\
      exists v, getLiteralValue t = literalToJs v /\
                parserPropertyType t = Ok (literal v))
  \/ (decidedByObjectTest t /\
      parserPropertyType t =
      (props <- mapM parseMember (getProperties t) ;; Ok (object props)))
  \/ (reachesThrow t /\
      parserPropertyType t = Err (UnsupportedType (getText t))).
Proof.
  destruct (primitiveTest t) eqn:Hp.
  { left. split; [reflexivity |]. apply resolve_at_primitive_test, Hp. }
  right. destruct (dateTest t) eqn:Hd.
  { left. repeat split. apply resolve_at_date_test; assumption. }
  right. assert (Ha : reachesArrayTest t) by (split; assumption).
  destruct (isArray t) eqn:Harr.
  { left. repeat split; try assumption.
    apply resolve_at_array_test; assumption. }
  right. assert (Hu : reachesUnionTest t) by (split; assumption).
  destruct (isUnion t) eqn:Hun.
  { left. repeat split; try assumption.
    apply resolve_at_union_test; assumption. }
  right. assert (Hl : reachesLiteralTest t) by (split; assumption).
  assert (Hafter :
    isLiteral t = false \/ representable (getLiteralValue t) = false ->
    (decidedByObjectTest t /\
     parserPropertyType t =
     (props <- mapM parseMember (getProperties t) ;; Ok (object props)))
    \/ (reachesThrow t /\
        parserPropertyType t = Err (UnsupportedType (getText t)))).
  { intros Hno. rewrite (resolve_after_literal_test t Hl Hno).
    destruct (isObject t) eqn:Hobj.
    - left. split; [| reflexivity]. repeat split; assumption.
    - right. split; [| reflexivity]. repeat split; assumption. }
  destruct (isLiteral t) eqn:Hlit; [| right; apply Hafter; left; reflexivity].
  destruct (representable (getLiteralValue t)) eqn:Hrep;
    [| right; apply Hafter; right; reflexivity].
  left. apply representable_inv in Hrep as [v Hv].
  repeat split; try assumption.
  exists v. split; [exact Hv |].
  apply resolve_at_literal_test; assumption.
Qed.

(** X1: a handle for which the string, number or boolean test holds
    resolves to that primitive whatever the later tests would answer; the
    string test wins over the number test and both over the boolean test. *)
Theorem X1_primitive_tests_decide_first t :
  primitiveTest t = true ->
  parserPropertyType t =
  Ok (primitive (if isString t then Pstring
                 else if isNumber t then Pnumber else Pboolean)) /\
  (forall types, parserPropertyType t <> Ok (union types)) /\
  (forall err : Exception, parserPropertyType t <> Err err).
Proof.
  intros H. rewrite (resolve_at_primitive_test t H).
  repeat split; intros; discriminate.
Qed.

(** The test that decided, read off the node returned. *)
Lemma resolve_Ok_inv t X :
  parserPropertyType t = Ok X ->
  match X with
  | primitive PDate => primitiveTest t = false /\ getText t = "Date"
  | primitive p =>
      primitiveTest t = true /\
      p = (if isString t then Pstring
           else if isNumber t then Pnumber else Pboolean)
  | array elementType =>
      reachesArrayTest t /\ isArray t = true /\
      exists e, getArrayElementType t = Some e /\
                parserPropertyType e = Ok elementType
  | union types =>
      reachesUnionTest t /\ isUnion t = true /\
      Forall2 (fun m x => parserPropertyType m = Ok x)
        (getUnionTypes t) types
  | literal v =>
      reachesLiteralTest t /\ isLiteral t = true /\
      getLiteralValue t = literalToJs v
  | object properties =>
      decidedByObjectTest t /\
      mapM parseMember (getProperties t) = Ok properties
  end.
Proof.
  intros H.
  destruct (resolve_cases t)
    as [[Hp E] | [(Hp & Hd & E) | [(Hr & Hk & E) | [(Hr & Hk & E)
       | [(Hr & Hk & v & Hv & E) | [[Hr E] | [Hr E]]]]]]];
    rewrite E in H.
  - injection H as <-.
    destruct (isString t); [| destruct (isNumber t)]; auto.
  - injection H as <-. split; [exact Hp |].
    apply String.eqb_eq. exact Hd.
  - destruct (getArrayElementType t) as [e |] eqn:He; [| discriminate].
    destruct (parserPropertyType e) as [Y | err] eqn:HY;
      simpl in H; [| discriminate].
    injection H as <-. repeat split; try assumption; try apply Hr.
    exists e. auto.
  - destruct (mapM parserPropertyType (getUnionTypes t)) as [ts | err]
      eqn:Hm; simpl in H; [| discriminate].
    injection H as <-. repeat split; try assumption; try apply Hr.
    apply mapM_Ok_iff. exact Hm.
  - injection H as <-. repeat split; try assumption; apply Hr.
  - destruct (mapM parseMember (getProperties t)) as [ps | err] eqn:Hm;
      simpl in H; [| discriminate].
    injection H as <-. split; [exact Hr | reflexivity].
  - discriminate.
Qed.

(** X2: the kind of the node returned tells which test decided and what the
    provider answered: a union node has one resolved member per reported
    member in order, an array node wraps the resolved element type, a
    literal node carries the reported value, an object node the parsed
    members. *)
Theorem X2_result_kind_tells_the_deciding_test t X :
  parserPropertyType t = Ok X ->
  match X with
  | primitive PDate => primitiveTest t = false /\ getText t = "Date"
  | primitive p =>
      primitiveTest t = true /\
      p = (if isString t then Pstring
           else if isNumber t then Pnumber else Pboolean)
  | array elementType =>
      reachesArrayTest t /\ isArray t = true /\
      exists e, getArrayElementType t = Some e /\
                parserPropertyType e = Ok elementType
  | union types =>
      reachesUnionTest t /\ isUnion t = true /\
      Forall2 (fun m x => parserPropertyType m = Ok x)
        (getUnionTypes t) types
  | literal v =>
      reachesLiteralTest t /\ isLiteral t = true /\
      getLiteralValue t = literalToJs v
  | object properties =>
      decidedByObjectTest t /\
      mapM parseMember (getProperties t) = Ok properties
  end.
Proof. apply resolve_Ok_inv. Qed.

End Decision.

(** ** Unions, arrays and objects: results and failures *)

Section Composite.

Context {Number : Type}.
Implicit Types (t h : @TsType Number) (X : @PropertyType Number).

Lemma literal_members_resolve (members : list (@TsType Number))
    (values : list (@LiteralValue Number)) :
  Forall2
    (fun m v =>
       reachesLiteralTest m /\ isLiteral m = true /\
       getLiteralValue m = literalToJs v) members values ->
  mapM parserPropertyType members = Ok (map literal values).
Proof.
  intros H. apply mapM_Ok_iff.
  induction H as [| m v members values (Hr & Hl & Hv) _ IH]; simpl;
    constructor; [| exact IH].
  apply resolve_at_literal_test; assumption.
Qed.

(** X3: a union whose members are literal types with representable values
    resolves to the union of the literal nodes of those values, one per
    member and in the order the provider reports them, and the TypeBox
    backend renders it as [t.Union([...])] with the literals in that
    order, separated by a comma and a space. *)
Theorem X3_union_of_literals_keeps_the_order t
    (values : list (@LiteralValue Number)) :
  reachesUnionTest t -> isUnion t = true ->
  Forall2
    (fun m v =>
       reachesLiteralTest m /\ isLiteral m = true /\
       getLiteralValue m = literalToJs v) (getUnionTypes t) values ->
  parserPropertyType t = Ok (union (map literal values)) /\
  (forall Number_toString : Number -> string,
     generateType Number_toString (union (map literal values)) =
     "t.Union(["
       ++ join ", " (map (generateLiteralType Number_toString) values)
       ++ "])").
Proof.
  intros Hr Hu Hall. split.
  - rewrite (resolve_at_union_test t Hr Hu).
    rewrite (literal_members_resolve _ _ Hall). reflexivity.
  - intros Number_toString. apply generateType_union_of_literals.
Qed.

(** X4: a union fails with the exception of the first member, in the order
    the provider reports them, whose resolution fails; the members after it
    are not looked at. *)
Theorem X4_union_fails_with_first_failing_member t
    (before after : list (@TsType Number)) (m : @TsType Number)
    (err : Exception) :
  reachesUnionTest t -> isUnion t = true ->
  getUnionTypes t = (before ++ m :: after)%list ->
  Forall (fun q => isOk (parserPropertyType q) = true) before ->
  parserPropertyType m = Err err ->
  parserPropertyType t = Err err.
Proof.
  intros Hr Hu Hsplit Hbefore Hm.
  rewrite (resolve_at_union_test t Hr Hu), Hsplit.
  rewrite (mapM_first_error parserPropertyType before after m err Hbefore Hm).
  reflexivity.
Qed.

(** X5: an array handle never goes on to the later tests: it resolves
    exactly when its element type does, fails with the exception of the
    element type when that fails, and fails with the provider's exception
    when the provider has no element type. *)
Theorem X5_array_succeeds_or_fails_with_its_element t :
  reachesArrayTest t -> isArray t = true ->
  (getArrayElementType t = None ->
   parserPropertyType t = Err (ProviderThrown NoArrayElementType)) /\
  (forall (element : @TsType Number) (err : Exception),
     getArrayElementType t = Some element ->
     parserPropertyType element = Err err ->
     parserPropertyType t = Err err) /\
  (forall X, parserPropertyType t = Ok X ->
     exists (element : @TsType Number) elementType,
       getArrayElementType t = Some element /\
       parserPropertyType element = Ok elementType /\
       X = array elementType).
Proof.
  intros Hr Ha. rewrite (resolve_at_array_test t Hr Ha).
  split; [| split].
  - intros ->. reflexivity.
  - intros element err -> ->. reflexivity.
  - intros X H.
    destruct (getArrayElementType t) as [element |]; [| discriminate].
    destruct (parserPropertyType element) as [Y | err] eqn:HY;
      simpl in H; [| discriminate].
    injection H as <-. exists element, Y. auto.
Qed.

(** What [parseMember] does on one member symbol. *)
Lemma parseMember_unfold (symbol : @Symbol Number) :
  parseMember symbol =
  match sym_getDeclarations symbol with
  | [] => Err (MissingDeclaration (sym_getName symbol))
  | declaration :: _ =>
      match node_getType declaration with
      | None => Err (CannotGetType (sym_getName symbol))
      | Some propertyType =>
          ty <- parserPropertyType propertyType ;;
          Ok (MkProperty (sym_getName symbol) ty (sym_isOptional symbol)
                false false)
      end
  end.
Proof. reflexivity. Qed.

(** X6: an object type fails at its first member that cannot be parsed, in
    the order the provider reports the members: with [MissingDeclaration]
    naming the member when its symbol has no declaration, with
    [CannotGetType] naming the member when its first declaration has no
    type, and with the exception of the member's type when that type fails
    to resolve.  Only the first declaration of a member is consulted. *)
Theorem X6_object_fails_at_first_bad_member t
    (before after : list (@Symbol Number)) (symbol : @Symbol Number) :
  decidedByObjectTest t ->
  getProperties t = (before ++ symbol :: after)%list ->
  Forall (fun s => isOk (parseMember s) = true) before ->
  (sym_getDeclarations symbol = [] ->
   parserPropertyType t
   = Err (MissingDeclaration (sym_getName symbol))) /\
  (forall declaration rest,
     sym_getDeclarations symbol = declaration :: rest ->
     node_getType declaration = None ->
     parserPropertyType t = Err (CannotGetType (sym_getName symbol))) /\
  (forall declaration rest propertyType (err : Exception),
     sym_getDeclarations symbol = declaration :: rest ->
     node_getType declaration = Some propertyType ->
     parserPropertyType propertyType = Err err ->
     parserPropertyType t = Err err).
Proof.
  intros (Hr & Hlit & Hobj) Hsplit Hbefore.
  assert (Hfail : forall err : Exception,
            parseMember symbol = Err err -> parserPropertyType t = Err err).
  { intros err Hs. rewrite (resolve_after_literal_test t Hr Hlit), Hobj, Hsplit.
    rewrite (mapM_first_error parseMember before after symbol err Hbefore Hs).
    reflexivity. }
  split; [| split].
  - intros Hd. apply Hfail. rewrite parseMember_unfold, Hd. reflexivity.
  - intros declaration rest Hd Hg. apply Hfail.
    rewrite parseMember_unfold, Hd, Hg. reflexivity.
  - intros declaration rest propertyType err Hd Hg Hty. apply Hfail.
    rewrite parseMember_unfold, Hd, Hg, Hty. reflexivity.
Qed.

Lemma parsed_members_unflagged (symbols : list (@Symbol Number))
    (ps : list (@Property Number)) :
  Forall
    (fun symbol =>
       forall declaration rest propertyType,
         sym_getDeclarations symbol = declaration :: rest ->
         node_getType declaration = Some propertyType ->
         forall X, parserPropertyType propertyType = Ok X ->
                   membersUnflagged X = true) symbols ->
  Forall2 (fun symbol p => parseMember symbol = Ok p) symbols ps ->
  membersUnflagged (object ps) = true.
Proof.
  intros Hall Hm. revert Hall.
  induction Hm as [| symbol p symbols ps Hp _ IH]; intros Hall;
    [reflexivity |].
  inversion Hall as [| ? ? Hsym Hrest]; subst.
  specialize (IH Hrest). simpl in IH |- *. rewrite IH, andb_true_r.
  apply parseMember_Ok in Hp
    as (declaration & rest & propertyType & ty & Hd & Hg & Hty & ->).
  simpl. eapply Hsym; eassumption.
Qed.

Lemma resolved_union_members_unflagged (members : list (@TsType Number))
    (xs : list (@PropertyType Number)) :
  Forall
    (fun m => forall X, parserPropertyType m = Ok X ->
                        membersUnflagged X = true) members ->
  Forall2 (fun m x => parserPropertyType m = Ok x) members xs ->
  membersUnflagged (union xs) = true.
Proof.
  intros Hall Hm. revert Hall.
  induction Hm as [| m x members xs Hx _ IH]; intros Hall; [reflexivity |].
  inversion Hall as [| ? ? Hhead Hrest]; subst.
  specialize (IH Hrest). simpl in IH |- *.
  rewrite (Hhead x Hx), IH. reflexivity.
Qed.

(** X7: in every IR tree the resolver returns, every [Property] record, at
    any depth (inside objects, arrays and unions), has [isReadonly] and
    [hasDefaultValue] false. *)
Theorem X7_resolved_members_are_unflagged_at_any_depth t X :
  parserPropertyType t = Ok X -> membersUnflagged X = true.
Proof.
  revert X. induction t as [t IHelem IHmembers IHprops]
    using TsType_nested_ind.
  intros X H.
  pose proof (resolve_Ok_inv t X H) as Hkind.
  destruct X as [p | elementType | properties | types | v];
    try reflexivity.
  - destruct Hkind as (_ & _ & e & He & Hres). simpl.
    eapply IHelem; eassumption.
  - destruct Hkind as [_ Hm]. apply mapM_Ok_iff in Hm.
    eapply parsed_members_unflagged; eassumption.
  - destruct Hkind as (_ & _ & Hm).
    eapply resolved_union_members_unflagged; eassumption.
Qed.

End Composite.

(** ** The exceptions of the resolver *)

Section ResolverExceptions.

Context {Number : Type}.
Implicit Types (t h : @TsType Number).

(** An exception of the resolver is one of its own four kinds, and an
    [UnsupportedType] carries the rendering of a handle below [t] that ran
    through every test. *)
Lemma resolve_Err_inv t (err : Exception) :
  parserPropertyType t = Err err ->
  resolverException err /\
  (forall txt : string,
     err = Thrown (UnsupportedType txt) ->
     exists h, nestedIn h t /\ reachesThrow h /\ getText h = txt).
Proof.
  revert err. induction t as [t IHelem IHmembers IHprops]
    using TsType_nested_ind.
  intros err H.
  destruct (resolve_cases t)
    as [[Hp E] | [(Hp & Hd & E) | [(Hr & Hk & E) | [(Hr & Hk & E)
       | [(Hr & Hk & v & Hv & E) | [[Hr E] | [Hr E]]]]]]];
    rewrite E in H; try discriminate.
  - (* array *)
    destruct (getArrayElementType t) as [e |] eqn:He.
    + destruct (parserPropertyType e) as [Y | err'] eqn:HY;
        simpl in H; [discriminate |].
      injection H as ->.
      destruct (IHelem e eq_refl err HY) as [Hkind Hnested].
      split; [exact Hkind |].
      intros txt Htxt. destruct (Hnested txt Htxt) as (h & Hin & Hh).
      exists h. split; [| exact Hh].
      eapply nested_element; eassumption.
    + injection H as <-. split; [exact I | discriminate].
  - (* union *)
    destruct (mapM parserPropertyType (getUnionTypes t)) as [ts | err']
      eqn:Hm; simpl in H; [discriminate |].
    injection H as ->.
    apply mapM_Err_inv in Hm as (m & Hin & Hm).
    rewrite Forall_forall in IHmembers.
    destruct (IHmembers m Hin err Hm) as [Hkind Hnested].
    split; [exact Hkind |].
    intros txt Htxt. destruct (Hnested txt Htxt) as (h & Hnest & Hh).
    exists h. split; [| exact Hh].
    eapply nested_union_member; eassumption.
  - (* object *)
    destruct (mapM parseMember (getProperties t)) as [ps | err'] eqn:Hm;
      simpl in H; [discriminate |].
    injection H as ->.
    apply mapM_Err_inv in Hm as (symbol & Hin & Hs).
    rewrite parseMember_unfold in Hs.
    destruct (sym_getDeclarations symbol) as [| declaration rest] eqn:Hd.
    { injection Hs as <-. split; [exact I | discriminate]. }
    destruct (node_getType declaration) as [propertyType |] eqn:Hg.
    2: { injection Hs as <-. split; [exact I | discriminate]. }
    destruct (parserPropertyType propertyType) as [ty | err'] eqn:Hty;
      simpl in Hs; [discriminate |].
    injection Hs as ->.
    rewrite Forall_forall in IHprops.
    destruct (IHprops symbol Hin declaration rest propertyType Hd Hg err Hty)
      as [Hkind Hnested].
    split; [exact Hkind |].
    intros txt Htxt. destruct (Hnested txt Htxt) as (h & Hnest & Hh).
    exists h. split; [| exact Hh].
    eapply nested_object_member; eassumption.
  - (* the final throw *)
    injection H as <-. split; [exact I |].
    intros txt Htxt. injection Htxt as <-.
    exists t. split; [constructor | split; [exact Hr | reflexivity]].
Qed.

(** X8: when the resolver fails with [UnsupportedType], the text it carries
    is the textual rendering of a handle at or below the resolved one (an
    element type, a union member, or the type of a member's first
    declaration, at any depth) on which no test of the resolver returned. *)
Theorem X8_unsupported_type_names_a_nested_handle t (txt : string) :
  parserPropertyType t = Err (UnsupportedType txt) ->
  exists h, nestedIn h t /\ reachesThrow h /\ getText h = txt.
Proof.
  intros H. destruct (resolve_Err_inv t _ H) as [_ Hnested].
  apply Hnested. reflexivity.
Qed.

End ResolverExceptions.

(** * Further properties of the class parser *)

Section ClassParser.

Context {Number : Type}.
Implicit Types (fs : @FileSystem Number) (pc : @ParsedClass Number).

Lemma parseProperty_Ok_iff (d : @PropertyDeclaration Number)
    (p : @Property Number) :
  parseProperty d = Ok p <->
  name p = prop_getName d /\
  parserPropertyType (prop_getType d) = Ok (type p) /\
  isOptional p = prop_hasQuestionToken d /\
  isReadonly p = prop_isReadonly d /\
  hasDefaultValue p = prop_hasInitializer d.
Proof.
  unfold parseProperty. split.
  - intros H.
    destruct (parserPropertyType (prop_getType d)) as [ty | err];
      simpl in H; [| discriminate].
    injection H as <-. simpl. auto.
  - intros (Hn & Hty & Ho & Hr & Hd). rewrite Hty. simpl.
    destruct p as [n ty o r dv]. simpl in *. congruence.
Qed.

Lemma parseProperty_Err_inv (d : @PropertyDeclaration Number)
    (err : Exception) :
  parseProperty d = Err err -> parserPropertyType (prop_getType d) = Err err.
Proof.
  unfold parseProperty.
  destruct (parserPropertyType (prop_getType d)); simpl;
    [discriminate | congruence].
Qed.

(** X9: [parseClass] returns a [ParsedClass] exactly when the file is
    there, it has a class of the requested name and the type of every
    declared property resolves.  The result then has one [Property] per
    declaration, in declaration order, with the declared name, the resolved
    type and the three flags as the declaration reports them, and the
    export flag of the class. *)
Theorem X9_parseClass_returns_one_property_per_declaration
    fs (filePath className : string) pc :
  parseClass fs filePath className = Ok pc <->
  exists (sourceFile : @SourceFile Number)
         (classDeclaration : @ClassDeclaration Number),
    fs filePath = Some sourceFile /\
    getClass sourceFile className = Some classDeclaration /\
    pc_name pc = className /\
    pc_filePath pc = filePath /\
    pc_isExported pc = class_isExported classDeclaration /\
    Forall2
      (fun d p =>
         name p = prop_getName d /\
         parserPropertyType (prop_getType d) = Ok (type p) /\
         isOptional p = prop_hasQuestionToken d /\
         isReadonly p = prop_isReadonly d /\
         hasDefaultValue p = prop_hasInitializer d)
      (class_getProperties classDeclaration) (pc_properties pc).
Proof.
  split.
  - intros H. unfold parseClass, addSourceFileAtPath in H.
    destruct (fs filePath) as [sourceFile |] eqn:Hfile;
      simpl in H; [| discriminate].
    destruct (getClass sourceFile className) as [classDeclaration |]
      eqn:Hclass; [| discriminate].
    unfold parseProperties in H.
    destruct (mapM parseProperty (class_getProperties classDeclaration))
      as [properties | err] eqn:Hm; simpl in H; [| discriminate].
    injection H as <-. exists sourceFile, classDeclaration. simpl.
    repeat split; try assumption.
    apply mapM_Ok_iff in Hm.
    eapply Forall2_impl; [| exact Hm].
    intros d p Hp. apply parseProperty_Ok_iff. exact Hp.
  - intros (sourceFile & classDeclaration & Hfile & Hclass & Hn & Hp & He
            & Hall).
    rewrite (parseClass_found fs filePath className sourceFile
               classDeclaration Hfile Hclass).
    assert (Hm : mapM parseProperty (class_getProperties classDeclaration)
                 = Ok (pc_properties pc)).
    { apply mapM_Ok_iff. eapply Forall2_impl; [| exact Hall].
      intros d p Hdp. apply parseProperty_Ok_iff. exact Hdp. }
    rewrite Hm. simpl. destruct pc as [n f x ps]. simpl in *. congruence.
Qed.

(** The three ways [parseClass] fails. *)
Lemma parseClass_Err_inv fs (filePath className : string) (err : Exception) :
  parseClass fs filePath className = Err err ->
  (fs filePath = None /\ err = ProviderThrown (FileNotFound filePath)) \/
  (exists sourceFile : @SourceFile Number,
     fs filePath = Some sourceFile /\
     getClass sourceFile className = None /\
     err = Thrown (ClassNotFound className filePath)) \/
  (exists (sourceFile : @SourceFile Number)
          (classDeclaration : @ClassDeclaration Number)
          (d : @PropertyDeclaration Number),
     fs filePath = Some sourceFile /\
     getClass sourceFile className = Some classDeclaration /\
     In d (class_getProperties classDeclaration) /\
     parserPropertyType (prop_getType d) = Err err /\
     resolverException err).
Proof.
  intros H. unfold parseClass, addSourceFileAtPath in H.
  destruct (fs filePath) as [sourceFile |] eqn:Hfile; simpl in H.
  2: { left. injection H as <-. auto. }
  right.
  destruct (getClass sourceFile className) as [classDeclaration |]
    eqn:Hclass.
  2: { left. injection H as <-. exists sourceFile. auto. }
  right. unfold parseProperties in H.
  destruct (mapM parseProperty (class_getProperties classDeclaration))
    as [properties | err'] eqn:Hm; simpl in H; [discriminate |].
  injection H as ->.
  apply mapM_Err_inv in Hm as (d & Hin & Hd).
  apply parseProperty_Err_inv in Hd.
  exists sourceFile, classDeclaration, d.
  repeat split; try assumption.
  apply (resolve_Err_inv _ _ Hd).
Qed.

(** X10: [parseClass] fails with the provider's file exception exactly when
    there is no file at the path, and with [ClassNotFound] exactly when the
    file is there and has no class of the requested name; the exception
    then carries the two arguments, class name first.  Every other failure
    is an exception of the resolver on the type of a declared property. *)
Theorem X10_parseClass_failures fs (filePath className : string) :
  (forall path : string,
     parseClass fs filePath className
     = Err (ProviderThrown (FileNotFound path)) <->
     fs filePath = None /\ path = filePath) /\
  (forall c f : string,
     parseClass fs filePath className = Err (Thrown (ClassNotFound c f)) <->
     c = className /\ f = filePath /\
     exists sourceFile : @SourceFile Number,
       fs filePath = Some sourceFile /\
       getClass sourceFile className = None) /\
  (forall err : Exception,
     parseClass fs filePath className = Err err ->
     (forall path, err <> ProviderThrown (FileNotFound path)) ->
     (forall c f, err <> Thrown (ClassNotFound c f)) ->
     exists (sourceFile : @SourceFile Number)
            (classDeclaration : @ClassDeclaration Number)
            (d : @PropertyDeclaration Number),
       fs filePath = Some sourceFile /\
       getClass sourceFile className = Some classDeclaration /\
       In d (class_getProperties classDeclaration) /\
       parserPropertyType (prop_getType d) = Err err).
Proof.
  split; [| split].
  - intros path. split.
    + intros H. apply parseClass_Err_inv in H
        as [[Hfile E] | [(sf & _ & _ & E) | (sf & cls & d & _ & _ & _ & _ & K)]].
      * injection E as ->. auto.
      * discriminate.
      * contradiction.
    + intros [Hfile ->]. unfold parseClass, addSourceFileAtPath.
      rewrite Hfile. reflexivity.
  - intros c f. split.
    + intros H. apply parseClass_Err_inv in H
        as [[Hfile E] | [(sf & Hfile & Hclass & E)
           | (sf & cls & d & _ & _ & _ & _ & K)]].
      * discriminate.
      * injection E as -> ->. repeat split. exists sf. auto.
      * contradiction.
    + intros (-> & -> & sf & Hfile & Hclass).
      unfold parseClass, addSourceFileAtPath.
      rewrite Hfile. simpl. rewrite Hclass. reflexivity.
  - intros err H Hnofile Hnoclass. apply parseClass_Err_inv in H
      as [[Hfile E] | [(sf & _ & _ & E)
         | (sf & cls & d & Hfile & Hclass & Hin & Hd & _)]].
    + exfalso. eapply Hnofile. exact E.
    + exfalso. eapply Hnoclass. exact E.
    + exists sf, cls, d. auto.
Qed.

(** X11: a class without properties parses to a [ParsedClass] with an empty
    property list, and the generated code is the imports followed by an
    object declaration with nothing between its braces. *)
Theorem X11_class_without_properties
    fs (filePath className : string) (sourceFile : @SourceFile Number)
    (classDeclaration : @ClassDeclaration Number) :
  fs filePath = Some sourceFile ->
  getClass sourceFile className = Some classDeclaration ->
  class_getProperties classDeclaration = [] ->
  parseClass fs filePath className
  = Ok (MkParsedClass className filePath
          (class_isExported classDeclaration) []) /\
  (forall (Number_toString : Number -> string)
          (String_toLowerCase : string -> string),
     generate Number_toString String_toLowerCase
       (MkParsedClass className filePath
          (class_isExported classDeclaration) [])
     = join newline getImports ++ newline ++ newline
         ++ "export const "
         ++ generateSchemaName String_toLowerCase className
         ++ " = t.Object({ " ++ newline ++ " });").
Proof.
  intros Hfile Hclass Hprops. split.
  - rewrite (parseClass_found fs filePath className sourceFile
               classDeclaration Hfile Hclass), Hprops.
    reflexivity.
  - intros Number_toString String_toLowerCase. reflexivity.
Qed.

End ClassParser.

(** * Further properties of the TypeBox generator *)

Lemma repeatString_snoc (n : nat) (s : string) :
  repeatString (S n) s = repeatString n s ++ s.
Proof.
  induction n as [| n IH]; simpl.
  - now rewrite append_empty_r.
  - simpl in IH. rewrite IH at 1. now rewrite append_assoc.
Qed.

Section PropertyTypeInduction.

Context {Number : Type}.
Variable P : @PropertyType Number -> Prop.

Hypothesis primitive_case : forall p, P (primitive p).
Hypothesis literal_case : forall v, P (literal v).
Hypothesis array_case : forall X, P X -> P (array X).
Hypothesis union_case : forall types, Forall P types -> P (union types).
Hypothesis object_case :
  forall properties, Forall (fun p => P (type p)) properties ->
                     P (object properties).

Lemma PropertyType_nested_ind : forall X : @PropertyType Number, P X.
Proof.
  fix IH 1. intros [p | X | properties | types | v].
  - apply primitive_case.
  - apply array_case, IH.
  - apply object_case.
    induction properties as [| q properties IHp]; constructor;
      [| exact IHp].
    destruct q as [n ty o r d]. simpl. apply IH.
  - apply union_case.
    induction types as [| X types IHt]; constructor; [apply IH | exact IHt].
  - apply literal_case.
Qed.

End PropertyTypeInduction.

Section Generator.

Context {Number : Type}.
Variable Number_toString : Number -> string.
Variable String_toLowerCase : string -> string.

Lemma generateProperty_clearFlags_step (p : @Property Number) :
  generateType Number_toString (clearFlags (type p))
  = generateType Number_toString (type p) ->
  generateProperty Number_toString (clearPropertyFlags p)
  = generateProperty Number_toString p.
Proof. destruct p as [n ty o r d]. simpl. intros ->. reflexivity. Qed.

Lemma generateType_clearFlags (X : @PropertyType Number) :
  generateType Number_toString (clearFlags X)
  = generateType Number_toString X.
Proof.
  induction X as [p | v | X IH | types IH | properties IH]
    using PropertyType_nested_ind; simpl; try reflexivity.
  - rewrite IH. reflexivity.
  - unfold generateUnionTypeWith. rewrite map_map.
    assert (E : map (fun X => generateType Number_toString (clearFlags X))
                  types
                = map (generateType Number_toString) types).
    { induction IH as [| X types HX _ IHt]; simpl; [reflexivity |].
      rewrite HX, IHt. reflexivity. }
    rewrite E. reflexivity.
  - unfold generateObjectTypeWith. rewrite map_map.
    assert (E : map (fun q => generateProperty Number_toString
                                (clearPropertyFlags q)) properties
                = map (generateProperty Number_toString) properties).
    { induction IH as [| q properties Hq _ IHp]; simpl; [reflexivity |].
      rewrite (generateProperty_clearFlags_step q Hq), IHp. reflexivity. }
    rewrite E. reflexivity.
Qed.

Lemma generateProperties_clearFlags (properties : list (@Property Number)) :
  generateProperties Number_toString (map clearPropertyFlags properties)
  = generateProperties Number_toString properties.
Proof.
  unfold generateProperties. rewrite map_map. f_equal.
  apply map_ext. intros q. apply generateProperty_clearFlags_step.
  apply generateType_clearFlags.
Qed.

(** X12: the generated code depends only on the class name and on the name,
    the type and the optional flag of each property: two parsed classes that
    agree on these give the same code, whatever their file path, their
    export flag and the readonly and default-value flags of their properties
    at any depth. *)
Theorem X12_generate_ignores_path_export_and_flags
    (pc1 pc2 : @ParsedClass Number) :
  pc_name pc1 = pc_name pc2 ->
  map clearPropertyFlags (pc_properties pc1)
  = map clearPropertyFlags (pc_properties pc2) ->
  generate Number_toString String_toLowerCase pc1
  = generate Number_toString String_toLowerCase pc2.
Proof.
  intros Hname Hprops. unfold generate. rewrite Hname.
  rewrite <- (generateProperties_clearFlags (pc_properties pc1)).
  rewrite <- (generateProperties_clearFlags (pc_properties pc2)).
  rewrite Hprops. reflexivity.
Qed.

Lemma generateType_nested_arrays (n : nat) (X : @PropertyType Number) :
  generateType Number_toString (Nat.iter n array X)
  = repeatString n "t.Array(" ++ generateType Number_toString X
      ++ repeatString n ")".
Proof.
  induction n as [| n IH].
  - simpl. now rewrite append_empty_r.
  - rewrite (repeatString_snoc n ")").
    change (repeatString (S n) "t.Array(")
      with ("t.Array(" ++ repeatString n "t.Array(").
    change (generateType Number_toString (Nat.iter (S n) array X))
      with ("t.Array(" ++ generateType Number_toString (Nat.iter n array X)
              ++ ")").
    rewrite IH, !append_assoc. reflexivity.
Qed.

(** X13: [n] array types around a type that resolves give code with [n]
    opening [t.Array(] before the code of that type and [n] closing
    parentheses after it. *)
Theorem X13_nested_arrays_render_balanced (n : nat)
    (e : @TsType Number) (X : @PropertyType Number) :
  parserPropertyType e = Ok X ->
  exists Y,
    parserPropertyType (Nat.iter n arrayOf e) = Ok Y /\
    generateType Number_toString Y
    = repeatString n "t.Array(" ++ generateType Number_toString X
        ++ repeatString n ")".
Proof.
  intros H. exists (Nat.iter n array X). split.
  - apply resolve_nested_arrays. exact H.
  - apply generateType_nested_arrays.
Qed.

End Generator.

Section SchemaNames.

Variable String_toLowerCase : string -> string.

(** X14: the [Schema] suffix never merges two names: two class names get
    the same schema name exactly when they are equal once their first
    character is lower-cased.  So two names that agree after the first
    character, with first characters of the same lower-case form, collide.
    The schema name is six characters longer than the lower-cased first
    character followed by the rest. *)
Theorem X14_schema_names_equal_iff_camel_case_equal :
  (forall (c1 c2 : ascii) (rest1 rest2 : string),
     generateSchemaName String_toLowerCase (String c1 rest1)
     = generateSchemaName String_toLowerCase (String c2 rest2) <->
     String_toLowerCase (String c1 EmptyString) ++ rest1
     = String_toLowerCase (String c2 EmptyString) ++ rest2) /\
  (forall (c1 c2 : ascii) (rest : string),
     String_toLowerCase (String c1 EmptyString)
     = String_toLowerCase (String c2 EmptyString) ->
     generateSchemaName String_toLowerCase (String c1 rest)
     = generateSchemaName String_toLowerCase (String c2 rest)) /\
  (forall (c : ascii) (rest : string),
     String.length (generateSchemaName String_toLowerCase (String c rest))
     = String.length (String_toLowerCase (String c EmptyString))
       + String.length rest + 6).
Proof.
  split; [| split].
  - intros c1 c2 rest1 rest2.
    rewrite !generateSchemaName_String, <- !append_assoc. split.
    + apply append_cancel_r.
    + intros ->. reflexivity.
  - intros c1 c2 rest H. rewrite !generateSchemaName_String, H. reflexivity.
  - intros c rest. rewrite generateSchemaName_String, !length_append.
    simpl. lia.
Qed.

End SchemaNames.

(** * The further properties on concrete declarations *)

(** [boolean] is also a union for the provider and resolves to the
    primitive. *)
Lemma X1_boolean_witness :
  primitiveTest booleanType = true /\
  isUnion booleanType = true /\
  parserPropertyType booleanType = Ok (primitive Pboolean).
Proof.
  repeat (split; [reflexivity |]).
  apply (X1_primitive_tests_decide_first booleanType eq_refl).
Defined.

Lemma X2_task_status_witness :
  parserPropertyType taskStatusType
  = Ok (union [literal (LitString "pending"); literal (LitString "active");
               literal (LitString "completed")]) /\
  reachesUnionTest taskStatusType /\
  isUnion taskStatusType = true /\
  Forall2 (fun m x => parserPropertyType m = Ok x)
    (getUnionTypes taskStatusType)
    [literal (LitString "pending"); literal (LitString "active");
     literal (LitString "completed")].
Proof.
  split; [reflexivity |].
  apply (X2_result_kind_tells_the_deciding_test taskStatusType
           (union [literal (LitString "pending");
                   literal (LitString "active");
                   literal (LitString "completed")]) eq_refl).
Defined.

Lemma X3_task_priority_witness :
  reachesUnionTest taskPriorityType /\
  isUnion taskPriorityType = true /\
  parserPropertyType taskPriorityType
  = Ok (union [literal (LitNumber 1%Z); literal (LitNumber 2%Z);
               literal (LitNumber 3%Z)]) /\
  generateType Z_toString
    (union [literal (LitNumber 1%Z); literal (LitNumber 2%Z);
            literal (LitNumber 3%Z)])
  = "t.Union([t.Literal(1), t.Literal(2), t.Literal(3)])".
Proof.
  assert (Hreach : reachesUnionTest taskPriorityType)
    by (repeat split; reflexivity).
  assert (Hmembers :
    Forall2
      (fun m v =>
         reachesLiteralTest m /\ isLiteral m = true /\
         getLiteralValue m = literalToJs v)
      (getUnionTypes taskPriorityType)
      [LitNumber 1%Z; LitNumber 2%Z; LitNumber 3%Z])
    by (repeat constructor).
  destruct (X3_union_of_literals_keeps_the_order taskPriorityType
              [LitNumber 1%Z; LitNumber 2%Z; LitNumber 3%Z]
              Hreach eq_refl Hmembers) as [Hres Hcode].
  split; [exact Hreach |]. split; [reflexivity |].
  split; [exact Hres |]. exact (Hcode Z_toString).
Defined.

(** [string | symbol | bigint] fails on [bigint], the first failing member
    in the order of the provider; [symbol] is not reached. *)
Lemma X4_mixed_union_witness :
  reachesUnionTest mixedUnionType /\
  isUnion mixedUnionType = true /\
  getUnionTypes mixedUnionType
  = ([stringType] ++ otherType "bigint" :: [otherType "symbol"])%list /\
  parserPropertyType mixedUnionType = Err (UnsupportedType "bigint").
Proof.
  assert (Hreach : reachesUnionTest mixedUnionType)
    by (repeat split; reflexivity).
  split; [exact Hreach |]. repeat (split; [reflexivity |]).
  apply (X4_union_fails_with_first_failing_member mixedUnionType
           [stringType] [otherType "symbol"] (otherType "bigint")
           (Thrown (UnsupportedType "bigint")) Hreach eq_refl eq_refl).
  - repeat constructor.
  - reflexivity.
Defined.

(** [symbol[]] fails with the exception of [symbol] although the array type
    is an object type for the provider. *)
Lemma X5_symbol_array_witness :
  reachesArrayTest (arrayOf (otherType "symbol")) /\
  isArray (arrayOf (otherType "symbol")) = true /\
  isObject (arrayOf (otherType "symbol")) = true /\
  parserPropertyType (arrayOf (otherType "symbol"))
  = Err (UnsupportedType "symbol").
Proof.
  assert (Hreach : reachesArrayTest (arrayOf (otherType "symbol")))
    by (split; reflexivity).
  split; [exact Hreach |]. repeat (split; [reflexivity |]).
  destruct (X5_array_succeeds_or_fails_with_its_element
              (arrayOf (otherType "symbol")) Hreach eq_refl)
    as (_ & Hfail & _).
  apply (Hfail (otherType "symbol") (Thrown (UnsupportedType "symbol"))
           eq_refl eq_refl).
Defined.

Lemma X6_undeclared_member_witness :
  decidedByObjectTest undeclaredMemberType /\
  getProperties undeclaredMemberType
  = ([member "id" stringType false false false]
       ++ MkSymbol "tag" [] false :: [])%list /\
  parserPropertyType undeclaredMemberType = Err (MissingDeclaration "tag").
Proof.
  assert (Hobj : decidedByObjectTest undeclaredMemberType).
  { repeat split; try reflexivity. left. reflexivity. }
  split; [exact Hobj |]. split; [reflexivity |].
  destruct (X6_object_fails_at_first_bad_member undeclaredMemberType
              [member "id" stringType false false false] []
              (MkSymbol "tag" [] false) Hobj eq_refl)
    as (Hmissing & _ & _).
  - repeat constructor.
  - apply Hmissing. reflexivity.
Defined.

(** The readonly modifier is dropped two levels down as well. *)
Lemma X7_person_witness :
  parserPropertyType personType
  = Ok (object
          [MkProperty "home"
             (object
                [MkProperty "street" (primitive Pstring) false false false;
                 MkProperty "city" (primitive Pstring) true false false])
             false false false]) /\
  @membersUnflagged Z
    (object
       [MkProperty "home"
          (object
             [MkProperty "street" (primitive Pstring) false false false;
              MkProperty "city" (primitive Pstring) true false false])
          false false false]) = true.
Proof.
  split; [reflexivity |].
  apply (X7_resolved_members_are_unflagged_at_any_depth personType _
           eq_refl).
Defined.

(** For [{ at: Date; keys: symbol[] }] the exception names [symbol], two
    levels below the type. *)
Lemma X8_record_with_symbols_witness :
  parserPropertyType recordWithSymbolsType = Err (UnsupportedType "symbol") /\
  exists h,
    nestedIn h recordWithSymbolsType /\ reachesThrow h /\
    getText h = "symbol".
Proof.
  split; [reflexivity |].
  apply (X8_unsupported_type_names_a_nested_handle recordWithSymbolsType
           "symbol" eq_refl).
Defined.

Lemma X11_empty_class_witness :
  emptyFiles "empty.ts" = Some (MkSourceFile "/repo/empty.ts" [emptyClass]) /\
  getClass (MkSourceFile "/repo/empty.ts" [emptyClass]) "Empty"
  = Some emptyClass /\
  class_getProperties emptyClass = [] /\
  parseClass emptyFiles "empty.ts" "Empty"
  = Ok (MkParsedClass "Empty" "empty.ts" false []) /\
  generate Z_toString Latin1_toLowerCase
    (MkParsedClass "Empty" "empty.ts" false [])
  = join newline getImports ++ newline ++ newline
      ++ "export const emptySchema = t.Object({ " ++ newline ++ " });".
Proof.
  do 3 (split; [reflexivity |]).
  destruct (X11_class_without_properties emptyFiles "empty.ts" "Empty"
              (MkSourceFile "/repo/empty.ts" [emptyClass]) emptyClass
              eq_refl eq_refl eq_refl) as [Hparse Hcode].
  split; [exact Hparse |]. exact (Hcode Z_toString Latin1_toLowerCase).
Defined.

Lemma X12_task_flags_witness :
  pc_name taskParsed = pc_name taskParsedFlagged /\
  map clearPropertyFlags (pc_properties taskParsed)
  = map clearPropertyFlags (pc_properties taskParsedFlagged) /\
  taskParsed <> taskParsedFlagged /\
  generate Z_toString Latin1_toLowerCase taskParsed = generate Z_toString Latin1_toLowerCase taskParsedFlagged.
Proof.
  do 2 (split; [reflexivity |]).
  split; [discriminate |].
  apply (X12_generate_ignores_path_export_and_flags Z_toString
           Latin1_toLowerCase taskParsed taskParsedFlagged eq_refl eq_refl).
Defined.

(** [string[][]] gives [t.Array(t.Array(t.String()))]. *)
Lemma X13_string_matrix_witness :
  parserPropertyType stringType = Ok (primitive Pstring) /\
  exists Y,
    parserPropertyType (arrayOf (arrayOf stringType)) = Ok Y /\
    generateType Z_toString Y = "t.Array(t.Array(t.String()))".
Proof.
  split; [reflexivity |].
  apply (X13_nested_arrays_render_balanced Z_toString 2 stringType
           (primitive Pstring) eq_refl).
Defined.
